(** * The "Results" view of the VIKTOR demo app (src/app.py)

    The controller method [plotly_and_data_view] walks over the cases of
    the "Calculate" step, derives a mass per case (plain Python product or
    the spreadsheet calculator service), relates it to the maximum mass of
    the case's norm and classifies the resulting unity check.  This file
    embeds that method and the helper [calculate_mass_from_spreadsheet]
    and proves the properties the specification states about them.

    Numbers.  Python's [float] is IEEE 754 binary64, which is exactly
    Rocq's primitive [float]; every arithmetic operation and comparison
    below is the binary64 one, so concrete runs evaluate to the very values
    the interpreter prints.  Python's [int] is [Z].  Volume and density are
    floats, as annotated on [calculate_mass_from_spreadsheet]; the int that
    the density's IntegerField delivers is converted by the first
    multiplication, exactly for every value the field admits.  The int
    literals 80 and 100 meet floats only, where they act as 80.0 and 100.0.

    Effects.  The method raises exceptions and calls an external service.
    Both are kept explicit: a computation returns the list of service
    requests it issued together with either a value or the exception that
    ended it ([M], a writer monad over an error monad).  The service is a
    function of the request it receives; what it answers is up to the
    sheet, which is a parameter of the development. *)

From Stdlib Require Import ZArith Floats Uint63 List String Bool Lia DecimalString.
From Stdlib Require QArith DecimalFacts DecimalNat FinFun.
Import ListNotations.

(* A decimal literal such as 0.3 denotes, as in Python, the nearest
   binary64 value; the nested [DataItem] needs no extra induction scheme. *)
Set Warnings "-inexact-float,-register-all".

Local Open Scope string_scope.
Local Open Scope list_scope.

(* ===================================================================== *)
(** ** Python values and exceptions *)
(* ===================================================================== *)

(** The exceptions that can end [plotly_and_data_view].  [SpreadsheetError]
    stands for whatever the spreadsheet calculator service raises; its
    payload is the service's own failure, carried along untouched. *)
Inductive exn : Type :=
| NotImplementedError
| UserException (msg : string)
| ZeroDivisionError
| SpreadsheetError (failure : string).

Inductive Result (A : Type) : Type :=
| OK (a : A)
| Raise (e : exn).
Arguments OK {A} a.
Arguments Raise {A} e.

(** One request to the spreadsheet service: the named inputs of the sheet. *)
Definition SpreadsheetCalculationInput : Type := (string * float)%type.
Definition Request : Type := list SpreadsheetCalculationInput.

(** A computation: the service requests issued, in order, and the outcome. *)
Definition M (A : Type) : Type := (list Request * Result A)%type.

Definition requests {A} (m : M A) : list Request := fst m.
Definition result {A} (m : M A) : Result A := snd m.

Definition ret {A} (a : A) : M A := ([], OK a).
Definition raise {A} (e : exn) : M A := ([], Raise e).

Definition bind {A B} (m : M A) (k : A -> M B) : M B :=
  match m with
  | (log, OK a) => let (log', r) := k a in (log ++ log', r)
  | (log, Raise e) => (log, Raise e)
  end.

Declare Scope py_scope.
Delimit Scope py_scope with py.
Notation "x <- m ;; k" := (bind m (fun x => k))
  (at level 61, m at next level, right associativity) : py_scope.
Notation "' pat <- m ;; k" := (bind m (fun x => match x with pat => k end))
  (at level 61, pat pattern, m at next level, right associativity) : py_scope.
Local Open Scope py_scope.

(** [float(n)] for an [int] operand of mixed arithmetic (correctly rounded;
    the ints of this program are far below 2^53, where it is exact). *)
Definition float_of_int (n : Z) : float :=
  if (n <? 0)%Z
  then PrimFloat.opp (PrimFloat.of_uint63 (Uint63.of_Z (- n)))
  else PrimFloat.of_uint63 (Uint63.of_Z n).

(** [x / n] with a float [x] and an int [n]: Python raises
    [ZeroDivisionError] on a zero divisor, otherwise divides in binary64. *)
Definition py_truediv (x : float) (n : Z) : M float :=
  if (n =? 0)%Z then raise ZeroDivisionError
  else ret (PrimFloat.div x (float_of_int n)).

(** [str(i)] of a non-negative int. *)
Definition str (i : nat) : string := NilZero.string_of_uint (Nat.to_uint i).

(* ===================================================================== *)
(** ** The data of the app *)
(* ===================================================================== *)

(** Lines 26-28. *)
Definition NORM_A_MAX : Z := 500.
Definition NORM_B_MAX : Z := 750.
Definition NORM_C_MAX : Z := 1000.

(** A row of the [calculate.cases] dynamic array. *)
Record Case : Type := mkCase {
  volume : float;
  density : float;
  norm : string
}.

(** [params.calculate]: the rows and the "Calculation method" toggle. *)
Record Calculate : Type := mkCalculate {
  cases : list Case;
  spreadsheet : bool
}.

Record Params : Type := mkParams {
  calculate : Calculate
}.

Inductive DataStatus : Type := SUCCESS | WARNING | ERROR.

(** The value shown by a [DataItem]: a number or a text. *)
Inductive PyValue : Type :=
| PyFloat (x : float)
| PyStr (s : string).

(** [DataItem(label, value, suffix=, number_of_decimals=, status=,
    subgroup=)]; a keyword that is not passed is [None], a [DataGroup] is
    the list of its items. *)
Inductive DataItem : Type :=
  mkDataItem {
    item_label : string;
    item_value : PyValue;
    item_suffix : option string;
    item_number_of_decimals : option nat;
    item_status : option DataStatus;
    item_subgroup : list DataItem
  }.

Definition DataGroup : Type := list DataItem.

(** The Plotly figure dictionary built at lines 409-412. *)
Record BarTrace : Type := mkBarTrace {
  trace_type : string;
  trace_x : list string;
  trace_y : list float;
  trace_marker_color : list string
}.

Record Figure : Type := mkFigure {
  fig_data : list BarTrace;
  fig_layout_title_text : string
}.

Record PlotlyAndDataResult : Type := mkPlotlyAndDataResult {
  res_fig : Figure;
  res_data : DataGroup
}.

(** The entry of a group with a given label, if any. *)
Fixpoint group_lookup (l : string) (g : DataGroup) : option DataItem :=
  match g with
  | [] => None
  | it :: g' => if item_label it =? l then Some it else group_lookup l g'
  end.

(* ===================================================================== *)
(** ** The program *)
(* ===================================================================== *)

Section App.

(** The spreadsheet calculator service (viktor.external.spreadsheet) with
    the sheet calculate_mass.xlsx behind it: given the named inputs and the
    name of an output cell it yields that cell's value, or fails. *)
Variable sheet : Request -> string -> string + float.

(** Lines 43-56: the inputs named 'volume' and 'density' go to the sheet,
    the output named 'mass' comes back; a failure of the service is not
    caught. *)
Definition calculate_mass_from_spreadsheet (volume density : float) : M float :=
  let inputs := [("volume", volume); ("density", density)] in
  match sheet inputs "mass" with
  | inr mass => ([inputs], OK mass)
  | inl failure => ([inputs], Raise (SpreadsheetError failure))
  end.

(** Lines 358-365: the maximum mass of the case's norm. *)
Definition max_mass_of (norm : string) : M Z :=
  if norm =? "A" then ret NORM_A_MAX
  else if norm =? "B" then ret NORM_B_MAX
  else if norm =? "C" then ret NORM_C_MAX
  else raise NotImplementedError.

(** Lines 367-372: the mass, by the selected calculation method. *)
Definition compute_mass (params : Params) (case : Case) : M float :=
  if spreadsheet (calculate params)
  then calculate_mass_from_spreadsheet (volume case) (density case)
  else ret (volume case * density case)%float.

(** Lines 376-384: status and bar colour of a unity check. *)
Definition classify (unity_check : float) : DataStatus * string :=
  if (100 <? unity_check)%float then (ERROR, "red")
  else if (80 <? unity_check)%float then (WARNING, "orange")
  else (SUCCESS, "green").

(** Lines 388-397. *)
Definition case_item (i : nat) (case : Case) (mass unity_check : float)
    (status : DataStatus) : DataItem :=
  mkDataItem ("Case " ++ str i)%string (PyFloat unity_check) (Some "%") (Some 0%nat) (Some status)
    [ mkDataItem "Volume" (PyFloat (volume case)) (Some "m続") None None [];
      mkDataItem "Density" (PyFloat (density case)) (Some "kg/m続") None None [];
      mkDataItem "Mass" (PyFloat mass) (Some "kg") None None [];
      mkDataItem "Norm" (PyStr (norm case)) None None None [];
      mkDataItem "Unity Check" (PyFloat unity_check) (Some "%") (Some 0%nat) (Some status) [] ].

(** Lines 358-397, the body of the loop for row number [i]: the pair
    appended to [graph_data] and the item appended to [data_items]. *)
Definition eval_case (params : Params) (i : nat) (case : Case)
    : M ((float * string) * DataItem) :=
  max_mass <- max_mass_of (norm case) ;;
  mass <- compute_mass params case ;;
  ratio <- py_truediv mass max_mass ;;
  let unity_check := (ratio * 100)%float in
  let '(status, color) := classify unity_check in
  ret ((unity_check, color), case_item i case mass unity_check status).

(** Lines 356-399: [for i, case in enumerate(cases, 1)], with the two
    lists the loop appends to. *)
Fixpoint loop (params : Params) (i : nat) (rows : list Case)
    (graph_data : list (float * string)) (data_items : list DataItem)
    : M (list (float * string) * list DataItem) :=
  match rows with
  | [] => ret (graph_data, data_items)
  | case :: rows' =>
      '(point, item) <- eval_case params i case ;;
      loop params (S i) rows' (graph_data ++ [point]) (data_items ++ [item])
  end.

(** Lines 350-414. *)
Definition plotly_and_data_view (params : Params) : M PlotlyAndDataResult :=
  '(graph_data, data_items) <- loop params 1 (cases (calculate params)) [] [] ;;
  let x := map (fun i => ("Case " ++ str i)%string) (seq 1 (List.length graph_data)) in
  '(y, color) <- match graph_data with
                 | _ :: _ => ret (map fst graph_data, map snd graph_data)
                 | [] => raise (UserException "Add at least 1 case.")
                 end ;;
  let fig := mkFigure [mkBarTrace "bar" x y color] "Unity Check [%]" in
  ret (mkPlotlyAndDataResult fig data_items).

End App.

Arguments calculate_mass_from_spreadsheet sheet volume density : simpl never.

(* ===================================================================== *)
(** ** Notions used to state the properties *)
(* ===================================================================== *)

(** The norms of the option field (lines 178-182). *)
Definition valid_norm (n : string) : Prop := n = "A" \/ n = "B" \/ n = "C".

(** What the body appends for row [i] once the mass and the maximum mass
    are known. *)
Definition case_output (i : nat) (c : Case) (mass : float) (max_mass : Z)
    : (float * string) * DataItem :=
  let unity_check := (mass / float_of_int max_mass * 100)%float in
  ((unity_check, snd (classify unity_check)),
   case_item i c mass unity_check (fst (classify unity_check))).

(** The rows [rows], numbered from [i], were each evaluated to the entry
    of [outs] at the same position. *)
Definition rows_evaluated (sheet : Request -> string -> string + float)
    (params : Params) (i : nat) (rows : list Case)
    (outs : list ((float * string) * DataItem)) : Prop :=
  List.length outs = List.length rows /\
  forall k c, nth_error rows k = Some c ->
    exists o, nth_error outs k = Some o /\
              result (eval_case sheet params (i + k) c) = OK o.

(** The result object the view builds from the collected outputs. *)
Definition view_result (outs : list ((float * string) * DataItem))
    : PlotlyAndDataResult :=
  mkPlotlyAndDataResult
    (mkFigure [mkBarTrace "bar"
                 (map (fun i => ("Case " ++ str i)%string) (seq 1 (List.length outs)))
                 (map fst (map fst outs))
                 (map snd (map fst outs))]
              "Unity Check [%]")
    (map snd outs).

(** The value a case item shows under the label [l] of its subgroup. *)
Definition shown (l : string) (item : DataItem) : option PyValue :=
  option_map item_value (group_lookup l (item_subgroup item)).

(** The three parallel series of the bar chart. *)
Definition chart_x (r : PlotlyAndDataResult) : list string :=
  List.concat (map trace_x (fig_data (res_fig r))).
Definition chart_y (r : PlotlyAndDataResult) : list float :=
  List.concat (map trace_y (fig_data (res_fig r))).
Definition chart_color (r : PlotlyAndDataResult) : list string :=
  List.concat (map trace_marker_color (fig_data (res_fig r))).

(** The request [calculate_mass_from_spreadsheet] sends for a row. *)
Definition request_of (c : Case) : Request :=
  [("volume", volume c); ("density", density c)].

(** [params] with the given rows and calculation method. *)
Definition params_of (rows : list Case) (use_spreadsheet : bool) : Params :=
  mkParams (mkCalculate rows use_spreadsheet).

(** A sheet that multiplies its two inputs, and one that is out of order
    for a density of 900. *)
Definition product_sheet : Request -> string -> string + float :=
  fun inputs _ =>
    match inputs with
    | [(_, v); (_, d)] => inr (v * d)%float
    | _ => inl "unexpected inputs"
    end.

Definition broken_sheet : Request -> string -> string + float :=
  fun inputs name =>
    match inputs with
    | [(_, v); (_, d)] =>
        if (d =? 900)%float then inl "sheet unreachable" else inr (v * d)%float
    | _ => inl "unexpected inputs"
    end.

(** The rows of the examples in the specification. *)
Definition case_1 : Case := mkCase 0.3 1000 "A".
Definition case_2 : Case := mkCase 0.8 1000 "A".
Definition case_3 : Case := mkCase 0.5 900 "B".

Definition sample_rows : list Case := [case_1; case_2; case_3].

(** What the view returns for [sample_rows], and for the same rows with the
    first two exchanged. *)
Definition sample_result : PlotlyAndDataResult :=
  view_result [case_output 1 case_1 300 500;
               case_output 2 case_2 800 500;
               case_output 3 case_3 450 750].

Definition swapped_result : PlotlyAndDataResult :=
  view_result [case_output 1 case_2 800 500;
               case_output 2 case_1 300 500;
               case_output 3 case_3 450 750].

(* ===================================================================== *)
(** ** The colour scale and the other two views *)
(* ===================================================================== *)

(** A Python number that is handed on as it is: an int or a float. *)
Inductive Number : Type :=
| NumInt (n : Z)
| NumFloat (x : float).

(** [Color(r, g, b)] and [Color.black()]. *)
Inductive Color : Type :=
| Color_rgb (r g b : Number)
| Color_black.

(** The exceptions of [get_color] and of the conversion [int(x)]. *)
Inductive color_exn : Type :=
| ValueError (msg : string)
| OverflowError (msg : string).

Inductive Outcome (A : Type) : Type :=
| Returns (a : A)
| Raises (e : color_exn).
Arguments Returns {A} a.
Arguments Raises {A} e.

Definition and_then {A B} (m : Outcome A) (k : A -> Outcome B) : Outcome B :=
  match m with
  | Returns a => k a
  | Raises e => Raises e
  end.

(** [str(n)] of an int. *)
Definition str_int (n : Z) : string := NilZero.string_of_int (Z.to_int n).

(** [int(x)] of a float: truncation towards zero; infinities and NaN are
    refused. *)
Definition py_int (x : float) : Outcome Z :=
  match Prim2SF x with
  | S754_zero _ => Returns 0%Z
  | S754_finite s m e =>
      let magnitude := if (0 <=? e)%Z then (Z.pos m * 2 ^ e)%Z
                       else (Z.pos m / 2 ^ (- e))%Z in
      Returns (if s then (- magnitude)%Z else magnitude)
  | S754_infinity _ => Raises (OverflowError "cannot convert float infinity to integer")
  | S754_nan => Raises (ValueError "cannot convert float NaN to integer")
  end.

(** Lines 32-40.  [value / 100] divides two ints into a float. *)
Definition get_color (value : Z) : Outcome Color :=
  if negb ((0 <=? value)%Z && (value <=? 100)%Z)
  then Raises (ValueError ("value (" ++ str_int value ++ ") must be between 0 - 100"))
  else and_then (py_int (float_of_int value / float_of_int 100 * float_of_int 255)%float)
         (fun red => Returns (Color_rgb (NumInt red) (NumInt 255) (NumInt 0))).

(** The objects of the map view. *)
Record GeoPoint : Type := mkGeoPoint {
  lat : float;
  lon : float
}.

Record MapLabel : Type := mkMapLabel {
  label_lat : float;
  label_lon : float;
  label_text : string;
  label_scale : Z
}.

Record MapPoint : Type := mkMapPoint {
  point_location : GeoPoint;
  point_description : string;
  point_color : Color;
  point_icon : string
}.

Record MapResult : Type := mkMapResult {
  map_features : list MapPoint;
  map_labels : list MapLabel;
  map_legend : list (Color * string)
}.

(** [params.research.data]: an unfilled field is [None]; a location that
    is filled in counts as true in [if location:]. *)
Record ResearchData : Type := mkResearchData {
  measurement : option Z;
  location : option GeoPoint
}.

(** Line 307: [[(get_color(i), f"{i}") for i in values]]. *)
Fixpoint legend_entries_of (values : list Z) : Outcome (list (Color * string)) :=
  match values with
  | [] => Returns []
  | i :: values' =>
      and_then (get_color i) (fun color =>
      and_then (legend_entries_of values') (fun entries =>
      Returns ((color, str_int i) :: entries)))
  end.

(** Lines 284-310. *)
Definition map_view (data : ResearchData) : Outcome MapResult :=
  and_then
    (match location data with
     | Some loc =>
         and_then
           (match measurement data with
            | Some m =>
                and_then (get_color m) (fun color =>
                Returns (color, "pin-add", [mkMapLabel (lat loc) (lon loc) (str_int m) 17]))
            | None => Returns (Color_black, "cross", [])
            end)
           (fun '(color, icon, labels) =>
              let description :=
                ("Measurement: " ++ match measurement data with
                                    | Some m => str_int m
                                    | None => "None"
                                    end)%string in
              Returns ([mkMapPoint loc description color icon], labels))
     | None => Returns ([], [])
     end)
    (fun '(features, labels) =>
       and_then (legend_entries_of [0; 10; 20; 30; 40; 50; 60; 70; 80; 90; 100]%Z)
         (fun legend_entries => Returns (mkMapResult features labels legend_entries))).

(** The objects of the geometry view. *)
Inductive Point : Type := mkPoint (coordinates : list Number).

Record Line : Type := mkLine {
  line_start : Point;
  line_end : Point
}.

Record Material : Type := mkMaterial {
  material_name : string;
  material_color : Color
}.

Inductive Geometry : Type :=
| CircularExtrusion (diameter : Number) (line : Line) (material : Material)
| SquareBeam (length_x length_y length_z : Number) (material : Material)
| Extrusion (profile : list Point) (line : Line) (material : Material).

Record Label : Type := mkLabel {
  label_point : Point;
  label_content : string;
  label_size_factor : Z
}.

Record GeometryResult : Type := mkGeometryResult {
  geometry : Geometry;
  geometry_labels : list Label
}.

(** [params.design]: the number fields deliver floats, an unfilled height
    or label is [None]. *)
Record Design : Type := mkDesign {
  shape : string;
  height : option float;
  red : float;
  green : float;
  blue : float;
  show_label : bool;
  label : option string
}.

(** Truth value of a text field: [None] and the empty text are false. *)
Definition text_filled (t : option string) : bool :=
  match t with
  | Some s => negb (s =? "")
  | None => false
  end.

(** Lines 313-345. *)
Definition geometry_view (design_params : Design) : Result GeometryResult :=
  let material :=
    mkMaterial "my_material"
      (Color_rgb (NumFloat (red design_params)) (NumFloat (green design_params))
                 (NumFloat (blue design_params))) in
  match height design_params with
  | Some h =>
      let extrusion_line :=
        mkLine (mkPoint [NumInt 0; NumInt 0; NumFloat (- h / 2)%float])
               (mkPoint [NumInt 0; NumInt 0; NumFloat (h / 2)%float]) in
      match
        (if shape design_params =? "Circle"
         then OK (CircularExtrusion (NumInt 1) extrusion_line material)
         else if shape design_params =? "Rectangle"
         then OK (SquareBeam (NumInt 1) (NumInt 1) (NumFloat h) material)
         else if shape design_params =? "Triangle"
         then OK (Extrusion [mkPoint [NumInt 1; NumInt 0]; mkPoint [NumInt (-1); NumInt 0];
                             mkPoint [NumInt 0; NumInt 2]; mkPoint [NumInt 1; NumInt 0]]
                            extrusion_line material)
         else Raise NotImplementedError)
      with
      | Raise e => Raise e
      | OK geometry =>
          let labels :=
            if show_label design_params && text_filled (label design_params)
            then match label design_params with
                 | Some text =>
                     [mkLabel (mkPoint [NumInt 0; NumInt 0; NumFloat (- h)%float]) text 2]
                 | None => []
                 end
            else [] in
          OK (mkGeometryResult geometry labels)
      end
  | None => Raise (UserException "Please fill in a value for 'height'")
  end.

(** [get_color] returns for [value] the colour with red channel
    255 * value / 100 (integer division), green 255 and blue 0. *)
Definition get_color_exact (value : Z) : bool :=
  match get_color value with
  | Returns (Color_rgb (NumInt r) (NumInt g) (NumInt b)) =>
      ((r =? 255 * value / 100) && (g =? 255) && (b =? 0))%Z
  | _ => false
  end.

(** The colour of the scale for a value from 0 to 100. *)
Definition scale_color (value : Z) : Color :=
  Color_rgb (NumInt (255 * value / 100)) (NumInt 255) (NumInt 0).

(** The legend of the map: the scale at 0, 10, ..., 100. *)
Definition scale_legend : list (Color * string) :=
  map (fun i => (scale_color i, str_int i)) [0; 10; 20; 30; 40; 50; 60; 70; 80; 90; 100]%Z.

Definition geometry_material (g : Geometry) : Material :=
  match g with
  | CircularExtrusion _ _ material => material
  | SquareBeam _ _ _ material => material
  | Extrusion _ _ material => material
  end.

(** The shapes of the option field (line 145). *)
Definition valid_shape (s : string) : Prop :=
  s = "Circle" \/ s = "Rectangle" \/ s = "Triangle".


Definition sample_location : GeoPoint := mkGeoPoint 52 4.5.

Definition sample_design : Design :=
  mkDesign "Rectangle" (Some 4%float) 100 100 100 true (Some "beam").

(** A sheet that answers every request with NaN. *)
Definition nan_sheet : Request -> string -> string + float :=
  fun _ _ => inr PrimFloat.nan.

(** The volumes 0.1, 0.2, ..., 1.0 that the steps of the volume field
    reach, each with the decimal fraction it stands for. *)
Definition volume_grid : list (float * QArith_base.Q) :=
  [(0.1, QArith_base.Qmake 1 10); (0.2, QArith_base.Qmake 2 10);
   (0.3, QArith_base.Qmake 3 10); (0.4, QArith_base.Qmake 4 10);
   (0.5, QArith_base.Qmake 5 10); (0.6, QArith_base.Qmake 6 10);
   (0.7, QArith_base.Qmake 7 10); (0.8, QArith_base.Qmake 8 10);
   (0.9, QArith_base.Qmake 9 10); (1, QArith_base.Qmake 10 10)]%float.

(** The unity check in exact rational arithmetic, and its status. *)
Definition exact_unity_check (volume : QArith_base.Q) (density max_mass : Z)
    : QArith_base.Q :=
  QArith_base.Qmult
    (QArith_base.Qdiv (QArith_base.Qmult volume (QArith_base.inject_Z density))
                      (QArith_base.inject_Z max_mass))
    (QArith_base.inject_Z 100).

Definition exact_status (unity_check : QArith_base.Q) : DataStatus * string :=
  if negb (QArith_base.Qle_bool unity_check (QArith_base.inject_Z 100))
  then (ERROR, "red")
  else if negb (QArith_base.Qle_bool unity_check (QArith_base.inject_Z 80))
  then (WARNING, "orange")
  else (SUCCESS, "green").

Definition DataStatus_eqb (a b : DataStatus) : bool :=
  match a, b with
  | SUCCESS, SUCCESS | WARNING, WARNING | ERROR, ERROR => true
  | _, _ => false
  end.

(** The binary64 status agrees with the exact one for every volume of the
    grid, every density of the list and every maximum mass of the list. *)
Definition grid_agrees (densities max_masses : list Z) : bool :=
  forallb (fun vq : float * QArith_base.Q =>
    forallb (fun d =>
      forallb (fun m =>
        let (s, c) := classify (fst vq * float_of_int d / float_of_int m * 100)%float in
        let (s', c') := exact_status (exact_unity_check (snd vq) d m) in
        DataStatus_eqb s s' && (c =? c'))
      max_masses)
    densities)
  volume_grid.

(* ===================================================================== *)
(** ** Running a computation *)
(* ===================================================================== *)

Lemma result_bind {A B} (m : M A) (k : A -> M B) :
  result (bind m k) =
  match result m with
  | OK a => result (k a)
  | Raise e => Raise e
  end.
Proof.
  destruct m as [log [a|e]]; cbn; [|reflexivity].
  destruct (k a) as [log' r]; reflexivity.
Qed.

Lemma requests_bind {A B} (m : M A) (k : A -> M B) :
  requests (bind m k) =
  requests m ++ match result m with
                | OK a => requests (k a)
                | Raise _ => []
                end.
Proof.
  destruct m as [log [a|e]]; cbn.
  - destruct (k a) as [log' r]; reflexivity.
  - now rewrite app_nil_r.
Qed.

Lemma result_ret {A} (a : A) : result (ret a) = OK a.
Proof. reflexivity. Qed.

Lemma result_raise {A} (e : exn) : result (@raise A e) = Raise e.
Proof. reflexivity. Qed.

(** A computation is its requests together with its outcome. *)
Lemma M_eta {A} (m : M A) : m = (requests m, result m).
Proof. now destruct m. Qed.

(* ===================================================================== *)
(** ** Order facts on binary64 *)
(* ===================================================================== *)

(** On the IEEE model of the floats: whatever is at most a positive finite
    number is not above a number of the same binade with a mantissa that is
    at least as large. *)
Lemma SFleb_not_SFltb (x : spec_float) (m1 m2 : positive) (e : Z) :
  (m1 <= m2)%positive ->
  SFleb x (S754_finite false m1 e) = true ->
  SFltb (S754_finite false m2 e) x = false.
Proof.
  intros Hm. unfold SFleb, SFltb.
  destruct x as [s|s| |s m e']; cbn [SFcompare];
    try congruence; try (destruct s; congruence).
  destruct s; try congruence.
  destruct (Z.compare_spec e' e) as [->|Hlt|Hgt].
  - rewrite Z.compare_refl, !Pos.compare_cont_spec. cbn [Pos.switch_Eq].
    destruct (Pos.compare_spec m m1) as [->|H1|H1]; cbn; try congruence; intros _.
    + destruct (Pos.compare_spec m2 m1); cbn; try reflexivity; lia.
    + destruct (Pos.compare_spec m2 m); cbn; try reflexivity; lia.
  - intros _. destruct (Z.compare_spec e e'); try reflexivity; lia.
  - congruence.
Qed.

Lemma Prim2SF_80 : Prim2SF 80 = S754_finite false 5629499534213120 (-46).
Proof. vm_compute. reflexivity. Qed.

Lemma Prim2SF_100 : Prim2SF 100 = S754_finite false 7036874417766400 (-46).
Proof. vm_compute. reflexivity. Qed.

Lemma le_100_not_above_100 (x : float) :
  (x <=? 100)%float = true -> (100 <? x)%float = false.
Proof.
  rewrite FloatAxioms.leb_spec, FloatAxioms.ltb_spec, Prim2SF_100.
  apply SFleb_not_SFltb. reflexivity.
Qed.

Lemma le_80_not_above_80 (x : float) :
  (x <=? 80)%float = true -> (80 <? x)%float = false.
Proof.
  rewrite FloatAxioms.leb_spec, FloatAxioms.ltb_spec, Prim2SF_80.
  apply SFleb_not_SFltb. reflexivity.
Qed.

Lemma le_80_not_above_100 (x : float) :
  (x <=? 80)%float = true -> (100 <? x)%float = false.
Proof.
  rewrite FloatAxioms.leb_spec, FloatAxioms.ltb_spec, Prim2SF_80, Prim2SF_100.
  apply SFleb_not_SFltb. vm_compute. discriminate.
Qed.

(* ===================================================================== *)
(** ** The loop body, the loop and the view, step by step *)
(* ===================================================================== *)

Lemma max_mass_of_valid (n : string) :
  valid_norm n ->
  exists m, max_mass_of n = ret m /\ (m = 500 \/ m = 750 \/ m = 1000)%Z.
Proof.
  intros [-> | [-> | ->]]; eexists; (split; [reflexivity|]); cbv; auto.
Qed.

Lemma max_mass_of_ok (n : string) (m : Z) :
  result (max_mass_of n) = OK m -> valid_norm n /\ (0 < m)%Z.
Proof.
  unfold max_mass_of, valid_norm.
  destruct (String.eqb_spec n "A"); [intros [= <-]; split; [auto | reflexivity]|].
  destruct (String.eqb_spec n "B"); [intros [= <-]; split; [auto | reflexivity]|].
  destruct (String.eqb_spec n "C"); [intros [= <-]; split; [auto | reflexivity]|].
  discriminate.
Qed.

Section Steps.

Variable sheet : Request -> string -> string + float.
Variable params : Params.

Lemma result_eval_case (i : nat) (c : Case) :
  result (eval_case sheet params i c) =
  match result (max_mass_of (norm c)) with
  | Raise e => Raise e
  | OK max_mass =>
      match result (compute_mass sheet params c) with
      | Raise e => Raise e
      | OK mass =>
          if (max_mass =? 0)%Z then Raise ZeroDivisionError
          else OK (case_output i c mass max_mass)
      end
  end.
Proof.
  unfold eval_case. rewrite result_bind.
  destruct (result (max_mass_of (norm c))) as [max_mass|e]; [|reflexivity].
  rewrite result_bind.
  destruct (result (compute_mass sheet params c)) as [mass|e]; [|reflexivity].
  rewrite result_bind. unfold py_truediv, case_output.
  destruct (max_mass =? 0)%Z; [reflexivity|].
  cbn [result ret snd]. destruct (classify _); reflexivity.
Qed.

Lemma eval_case_ok (i : nat) (c : Case) (o : (float * string) * DataItem) :
  result (eval_case sheet params i c) = OK o ->
  exists max_mass mass,
    result (max_mass_of (norm c)) = OK max_mass /\
    result (compute_mass sheet params c) = OK mass /\
    (0 < max_mass)%Z /\
    o = case_output i c mass max_mass.
Proof.
  rewrite result_eval_case.
  destruct (result (max_mass_of (norm c))) as [max_mass|e] eqn:Hmax; [|discriminate].
  destruct (result (compute_mass sheet params c)) as [mass|e]; [|discriminate].
  destruct (max_mass =? 0)%Z; [discriminate|]. intros [= <-].
  exists max_mass, mass. repeat split; try reflexivity.
  now apply max_mass_of_ok in Hmax.
Qed.

Lemma result_loop_cons (i : nat) (c : Case) (rows : list Case)
    (gd : list (float * string)) (di : list DataItem) :
  result (loop sheet params i (c :: rows) gd di) =
  match result (eval_case sheet params i c) with
  | OK o => result (loop sheet params (S i) rows (gd ++ [fst o]) (di ++ [snd o]))
  | Raise e => Raise e
  end.
Proof.
  cbn [loop]. rewrite result_bind.
  destruct (result (eval_case sheet params i c)) as [[point item]|e]; reflexivity.
Qed.

Lemma loop_ok (rows : list Case) :
  forall i gd di gd' di',
    result (loop sheet params i rows gd di) = OK (gd', di') ->
    exists outs, rows_evaluated sheet params i rows outs /\
                 gd' = gd ++ map fst outs /\ di' = di ++ map snd outs.
Proof.
  induction rows as [|c rows IH]; intros i gd di gd' di' H.
  - cbn in H. injection H as <- <-. exists []. repeat split.
    + intros k c Hk. now destruct k.
    + now rewrite app_nil_r.
    + now rewrite app_nil_r.
  - rewrite result_loop_cons in H.
    destruct (result (eval_case sheet params i c)) as [o|e] eqn:Ho; [|discriminate].
    apply IH in H as (outs & [Hlen Hnth] & -> & ->).
    exists (o :: outs). repeat split.
    + cbn. now rewrite Hlen.
    + intros [|k] c' Hk; cbn in Hk.
      * injection Hk as <-. exists o. now rewrite Nat.add_0_r.
      * destruct (Hnth k c' Hk) as (o' & Ho' & He). exists o'. split; [exact Ho'|].
        now rewrite Nat.add_succ_r.
    + now rewrite <- app_assoc.
    + now rewrite <- app_assoc.
Qed.

(** Conversely, a loop over rows that each evaluate runs to its end. *)
Lemma loop_runs (rows : list Case) :
  forall i gd di,
    (forall k c, nth_error rows k = Some c ->
       exists o, result (eval_case sheet params (i + k) c) = OK o) ->
    exists gd' di', result (loop sheet params i rows gd di) = OK (gd', di').
Proof.
  induction rows as [|c rows IH]; intros i gd di H.
  - now exists gd, di.
  - rewrite result_loop_cons.
    destruct (H 0%nat c eq_refl) as [o Ho]. rewrite Nat.add_0_r in Ho. rewrite Ho.
    apply IH. intros k c' Hk.
    replace (S i + k)%nat with (i + S k)%nat by lia. now apply (H (S k)).
Qed.

Lemma result_view :
  result (plotly_and_data_view sheet params) =
  match result (loop sheet params 1 (cases (calculate params)) [] []) with
  | Raise e => Raise e
  | OK (graph_data, data_items) =>
      match graph_data with
      | [] => Raise (UserException "Add at least 1 case.")
      | _ :: _ =>
          OK (mkPlotlyAndDataResult
                (mkFigure [mkBarTrace "bar"
                             (map (fun i => ("Case " ++ str i)%string)
                                  (seq 1 (List.length graph_data)))
                             (map fst graph_data) (map snd graph_data)]
                          "Unity Check [%]")
                data_items)
      end
  end.
Proof.
  unfold plotly_and_data_view. rewrite result_bind.
  destruct (result (loop sheet params 1 (cases (calculate params)) [] []))
    as [[gd di]|e]; [|reflexivity].
  rewrite result_bind. destruct gd; reflexivity.
Qed.

Lemma view_ok (r : PlotlyAndDataResult) :
  result (plotly_and_data_view sheet params) = OK r ->
  exists outs,
    rows_evaluated sheet params 1 (cases (calculate params)) outs /\
    outs <> [] /\ r = view_result outs.
Proof.
  rewrite result_view.
  destruct (result (loop sheet params 1 (cases (calculate params)) [] []))
    as [[gd di]|e] eqn:Hloop; [|discriminate].
  apply loop_ok in Hloop as (outs & Hrows & -> & ->). cbn [app].
  destruct outs as [|o outs]; [discriminate|].
  intros [= <-]. exists (o :: outs). split; [exact Hrows|]. split; [discriminate|].
  unfold view_result. now rewrite !length_map.
Qed.

Lemma requests_eval_case (i : nat) (c : Case) :
  requests (eval_case sheet params i c) =
  match result (max_mass_of (norm c)) with
  | OK _ => requests (compute_mass sheet params c)
  | Raise _ => []
  end.
Proof.
  unfold eval_case. rewrite requests_bind.
  assert (Hlookup : requests (max_mass_of (norm c)) = []).
  { unfold max_mass_of.
    destruct (norm c =? "A"); [reflexivity|].
    destruct (norm c =? "B"); [reflexivity|].
    destruct (norm c =? "C"); reflexivity. }
  rewrite Hlookup. cbn [app].
  destruct (result (max_mass_of (norm c))) as [max_mass|e]; [|reflexivity].
  rewrite requests_bind.
  destruct (result (compute_mass sheet params c)) as [mass|e]; [|apply app_nil_r].
  rewrite requests_bind. unfold py_truediv.
  destruct (max_mass =? 0)%Z; cbn [requests result ret raise fst snd app];
    [apply app_nil_r|].
  destruct (classify _). apply app_nil_r.
Qed.

Lemma requests_loop_cons (i : nat) (c : Case) (rows : list Case)
    (gd : list (float * string)) (di : list DataItem) :
  requests (loop sheet params i (c :: rows) gd di) =
  requests (eval_case sheet params i c) ++
  match result (eval_case sheet params i c) with
  | OK o => requests (loop sheet params (S i) rows (gd ++ [fst o]) (di ++ [snd o]))
  | Raise e => []
  end.
Proof.
  cbn [loop]. rewrite requests_bind.
  destruct (result (eval_case sheet params i c)) as [[point item]|e]; reflexivity.
Qed.

(** Only the loop talks to the service. *)
Lemma requests_view :
  requests (plotly_and_data_view sheet params) =
  requests (loop sheet params 1 (cases (calculate params)) [] []).
Proof.
  unfold plotly_and_data_view. rewrite requests_bind.
  destruct (result (loop sheet params 1 (cases (calculate params)) [] []))
    as [[gd di]|e]; [|apply app_nil_r].
  rewrite requests_bind. destruct gd; cbn; apply app_nil_r.
Qed.

End Steps.

(** The rows only matter to the loop; the body reads the calculation
    method and nothing else of [params]. *)
Lemma eval_case_method (sheet : Request -> string -> string + float)
    (p q : Params) (i : nat) (c : Case) :
  spreadsheet (calculate p) = spreadsheet (calculate q) ->
  eval_case sheet p i c = eval_case sheet q i c.
Proof.
  intros H. unfold eval_case, compute_mass. now rewrite H.
Qed.

Lemma compute_mass_local (sheet : Request -> string -> string + float)
    (rows : list Case) (c : Case) :
  compute_mass sheet (params_of rows false) c = ret (volume c * density c)%float.
Proof. reflexivity. Qed.

Lemma result_compute_mass_delegated (sheet : Request -> string -> string + float)
    (rows : list Case) (c : Case) :
  result (compute_mass sheet (params_of rows true) c) =
  match sheet (request_of c) "mass" with
  | inr mass => OK mass
  | inl failure => Raise (SpreadsheetError failure)
  end.
Proof.
  cbn. unfold calculate_mass_from_spreadsheet, request_of.
  destruct (sheet _ _); reflexivity.
Qed.

(** The three branches of the classification, by the comparisons that
    select them. *)
Lemma classify_cases (uc : float) :
  ((100 <? uc)%float = true -> classify uc = (ERROR, "red")) /\
  ((80 <? uc)%float = true -> (uc <=? 100)%float = true ->
     classify uc = (WARNING, "orange")) /\
  ((uc <=? 80)%float = true -> classify uc = (SUCCESS, "green")).
Proof.
  unfold classify. repeat split.
  - now intros ->.
  - intros H80 H100. now rewrite (le_100_not_above_100 _ H100), H80.
  - intros H. now rewrite (le_80_not_above_100 _ H), (le_80_not_above_80 _ H).
Qed.

Lemma view_ok_nth (sheet : Request -> string -> string + float)
    (params : Params) (r : PlotlyAndDataResult) (k : nat) (c : Case) :
  result (plotly_and_data_view sheet params) = OK r ->
  nth_error (cases (calculate params)) k = Some c ->
  exists uc color item,
    result (eval_case sheet params (S k) c) = OK ((uc, color), item) /\
    nth_error (res_data r) k = Some item /\
    nth_error (chart_x r) k = Some ("Case " ++ str (S k))%string /\
    nth_error (chart_y r) k = Some uc /\
    nth_error (chart_color r) k = Some color.
Proof.
  intros Hr Hk. apply view_ok in Hr as (outs & [Hlen Hnth] & _ & ->).
  destruct (Hnth k c Hk) as ([[uc color] item] & Ho & He).
  exists uc, color, item. split; [exact He|].
  unfold chart_x, chart_y, chart_color, view_result. cbn. rewrite !app_nil_r.
  repeat split.
  - now rewrite nth_error_map, Ho.
  - rewrite nth_error_map.
    assert (Hlt : (k < List.length outs)%nat)
      by (apply nth_error_Some; rewrite Ho; discriminate).
    rewrite (nth_error_nth' _ 0%nat) by now rewrite length_seq.
    now rewrite seq_nth.
  - now rewrite !nth_error_map, Ho.
  - now rewrite !nth_error_map, Ho.
Qed.

Lemma view_ok_length (sheet : Request -> string -> string + float)
    (params : Params) (r : PlotlyAndDataResult) :
  result (plotly_and_data_view sheet params) = OK r ->
  let n := List.length (cases (calculate params)) in
  (0 < n)%nat /\ List.length (res_data r) = n /\ List.length (chart_x r) = n /\
  List.length (chart_y r) = n /\ List.length (chart_color r) = n.
Proof.
  intros Hr. apply view_ok in Hr as (outs & [Hlen _] & Hne & ->).
  unfold chart_x, chart_y, chart_color, view_result. cbn. rewrite !app_nil_r.
  rewrite !length_map, length_seq, <- Hlen. repeat split.
  destruct outs; [contradiction | cbn; lia].
Qed.

(** With a valid norm the body can only fail where the mass does. *)
Lemma eval_case_valid (sheet : Request -> string -> string + float)
    (params : Params) (i : nat) (c : Case) :
  valid_norm (norm c) ->
  exists max_mass,
    max_mass_of (norm c) = ret max_mass /\ (0 < max_mass)%Z /\
    result (eval_case sheet params i c) =
    match result (compute_mass sheet params c) with
    | OK mass => OK (case_output i c mass max_mass)
    | Raise e => Raise e
    end.
Proof.
  intros Hv. destruct (max_mass_of_valid _ Hv) as (m & Hm & Hval).
  assert (Hpos : (0 < m)%Z) by lia.
  exists m. split; [exact Hm|]. split; [exact Hpos|].
  rewrite result_eval_case, Hm, result_ret.
  destruct (result (compute_mass sheet params c)) as [mass|e]; [|reflexivity].
  destruct (Z.eqb_spec m 0); [lia | reflexivity].
Qed.

Lemma compute_mass_outcome (sheet : Request -> string -> string + float)
    (params : Params) (c : Case) :
  (exists mass, result (compute_mass sheet params c) = OK mass) \/
  (exists failure,
     spreadsheet (calculate params) = true /\
     sheet (request_of c) "mass" = inl failure /\
     result (compute_mass sheet params c) = Raise (SpreadsheetError failure)).
Proof.
  unfold compute_mass, calculate_mass_from_spreadsheet, request_of. cbv zeta.
  destruct (spreadsheet (calculate params)); [|left; eexists; reflexivity].
  destruct (sheet _ _) as [failure|mass].
  - right. exists failure. repeat split; reflexivity.
  - left. now exists mass.
Qed.

(** Over rows with valid norms the loop either runs to its end or stops
    at a row whose spreadsheet request failed, with that failure. *)
Lemma loop_outcome (sheet : Request -> string -> string + float)
    (params : Params) (rows : list Case) :
  (forall c, In c rows -> valid_norm (norm c)) ->
  forall i gd di,
    (exists gd' di', result (loop sheet params i rows gd di) = OK (gd', di')) \/
    (exists c failure,
       In c rows /\ spreadsheet (calculate params) = true /\
       sheet (request_of c) "mass" = inl failure /\
       result (loop sheet params i rows gd di) = Raise (SpreadsheetError failure)).
Proof.
  induction rows as [|c rows IH]; intros Hv i gd di.
  - left. now exists gd, di.
  - rewrite result_loop_cons.
    destruct (eval_case_valid sheet params i c (Hv c (or_introl eq_refl)))
      as (m & _ & _ & ->).
    destruct (compute_mass_outcome sheet params c)
      as [[mass ->] | (failure & Hs & Hf & ->)].
    + destruct (IH (fun c' H => Hv c' (or_intror H)) (S i)
                   (gd ++ [fst (case_output i c mass m)])
                   (di ++ [snd (case_output i c mass m)]))
        as [Hok | (c' & failure & Hin & Hs & Hf & Hr)].
      * now left.
      * right. exists c', failure. repeat split; auto. now right.
    + right. exists c, failure. repeat split; auto. now left.
Qed.

(** The loops of two parameter sets whose bodies agree on every row agree. *)
Lemma loop_ext (sheet : Request -> string -> string + float)
    (p q : Params) (rows : list Case) :
  (forall i c, In c rows ->
     result (eval_case sheet p i c) = result (eval_case sheet q i c)) ->
  forall i gd di,
    result (loop sheet p i rows gd di) = result (loop sheet q i rows gd di).
Proof.
  induction rows as [|c rows IH]; intros H i gd di; [reflexivity|].
  rewrite !result_loop_cons, (H i c (or_introl eq_refl)).
  destruct (result (eval_case sheet q i c)) as [o|e]; [|reflexivity].
  apply IH. intros j c' Hin. apply H. now right.
Qed.

(** The exceptions of the loop are those of the body at some row. *)
Lemma loop_raises (sheet : Request -> string -> string + float)
    (params : Params) (rows : list Case) :
  forall i gd di e,
    result (loop sheet params i rows gd di) = Raise e ->
    exists k c, nth_error rows k = Some c /\
                result (eval_case sheet params (i + k) c) = Raise e.
Proof.
  induction rows as [|c rows IH]; intros i gd di e H; [discriminate|].
  rewrite result_loop_cons in H.
  destruct (result (eval_case sheet params i c)) as [o|e'] eqn:Ho.
  - apply IH in H as (k & c' & Hk & He). exists (S k), c'. split; [exact Hk|].
    now replace (i + S k)%nat with (S i + k)%nat by lia.
  - injection H as <-. exists 0%nat, c. split; [reflexivity|].
    now rewrite Nat.add_0_r.
Qed.

Lemma eval_case_raises (sheet : Request -> string -> string + float)
    (params : Params) (i : nat) (c : Case) (e : exn) :
  result (eval_case sheet params i c) = Raise e ->
  e = NotImplementedError \/ e = ZeroDivisionError \/
  exists failure, e = SpreadsheetError failure.
Proof.
  rewrite result_eval_case. unfold max_mass_of.
  destruct (norm c =? "A"); [|destruct (norm c =? "B"); [|destruct (norm c =? "C")]];
    cbn [result ret raise snd];
    try (intros [= <-]; now left);
    (destruct (compute_mass_outcome sheet params c)
       as [[mass ->] | (failure & _ & _ & ->)];
     [ cbn; discriminate | intros [= <-]; right; right; now exists failure ]).
Qed.

(** With the Python method nothing is sent to the service. *)
Lemma requests_loop_local (sheet : Request -> string -> string + float)
    (R rows : list Case) :
  forall i gd di, requests (loop sheet (params_of R false) i rows gd di) = [].
Proof.
  induction rows as [|c rows IH]; intros i gd di; [reflexivity|].
  rewrite requests_loop_cons, requests_eval_case, compute_mass_local.
  assert (Hnil : match result (max_mass_of (norm c)) with
                 | OK _ => requests (ret (volume c * density c)%float)
                 | Raise _ => []
                 end = @nil Request)
    by (destruct (result (max_mass_of (norm c))); reflexivity).
  rewrite Hnil. cbn [app].
  destruct (result (eval_case sheet (params_of R false) i c)); [apply IH | reflexivity].
Qed.

(** With the spreadsheet method a row with a valid norm sends its request
    and passes on what the service answers. *)
Lemma eval_case_delegated (sheet : Request -> string -> string + float)
    (R : list Case) (i : nat) (c : Case) :
  valid_norm (norm c) ->
  exists max_mass,
    eval_case sheet (params_of R true) i c =
    match sheet (request_of c) "mass" with
    | inr mass => ([request_of c], OK (case_output i c mass max_mass))
    | inl failure => ([request_of c], Raise (SpreadsheetError failure))
    end.
Proof.
  intros Hv.
  destruct (eval_case_valid sheet (params_of R true) i c Hv) as (m & Hm & _ & Hres).
  exists m. rewrite (M_eta (eval_case sheet (params_of R true) i c)).
  rewrite requests_eval_case, Hres, Hm, result_ret.
  rewrite result_compute_mass_delegated.
  cbn [compute_mass params_of calculate spreadsheet].
  unfold calculate_mass_from_spreadsheet, request_of. cbv zeta.
  destruct (sheet _ _); reflexivity.
Qed.

(** Among the rows, the first one whose request fails. *)
Lemma first_failure (sheet : Request -> string -> string + float)
    (rows : list Case) :
  (exists c failure, In c rows /\ sheet (request_of c) "mass" = inl failure) ->
  exists pre c post failure,
    rows = pre ++ c :: post /\
    (forall c', In c' pre -> exists mass, sheet (request_of c') "mass" = inr mass) /\
    sheet (request_of c) "mass" = inl failure.
Proof.
  induction rows as [|c0 rows IH]; intros (c & failure & Hin & Hf); [contradiction|].
  destruct (sheet (request_of c0) "mass") as [f0|m0] eqn:H0.
  - exists [], c0, rows, f0. repeat split; [contradiction | exact H0].
  - destruct Hin as [-> | Hin]; [congruence|].
    destruct IH as (pre & c' & post & f' & -> & Hpre & Hf'); [now exists c, failure|].
    exists (c0 :: pre), c', post, f'. repeat split; [|exact Hf'].
    intros c'' [<- | Hin'']; [now exists m0 | now apply Hpre].
Qed.

(** The loop stops at that row: the rows before it and the row itself were
    sent to the service, the rows after it never are. *)
Lemma loop_first_failure (sheet : Request -> string -> string + float)
    (R pre : list Case) (c : Case) (post : list Case) (failure : string) :
  (forall c', In c' pre -> valid_norm (norm c')) ->
  (forall c', In c' pre -> exists mass, sheet (request_of c') "mass" = inr mass) ->
  valid_norm (norm c) ->
  sheet (request_of c) "mass" = inl failure ->
  forall i gd di,
    loop sheet (params_of R true) i (pre ++ c :: post) gd di =
    (map request_of (pre ++ [c]), Raise (SpreadsheetError failure)).
Proof.
  intros Hvalid Hpre Hv Hf.
  induction pre as [|c0 pre IH]; intros i gd di; cbn [app loop map].
  - destruct (eval_case_delegated sheet R i c Hv) as (m & ->). now rewrite Hf.
  - destruct (eval_case_delegated sheet R i c0 (Hvalid c0 (or_introl eq_refl)))
      as (m & ->).
    destruct (Hpre c0 (or_introl eq_refl)) as [mass ->].
    unfold case_output. cbn [bind].
    rewrite IH; [reflexivity | |].
    + intros c' H. apply Hvalid. now right.
    + intros c' H. apply Hpre. now right.
Qed.

(* ===================================================================== *)
(** ** Concrete runs *)
(* ===================================================================== *)

(** The three scenarios of the specification, evaluated with the Python
    method: unity checks 60, 160 and 60. *)
Example run_sample_rows :
  plotly_and_data_view product_sheet (params_of sample_rows false)
  = ([], OK sample_result) /\
  chart_y sample_result = [60; 160; 60]%float /\
  chart_color sample_result = ["green"; "red"; "green"] /\
  chart_x sample_result = ["Case 1"; "Case 2"; "Case 3"] /\
  map item_status (res_data sample_result) = [Some SUCCESS; Some ERROR; Some SUCCESS].
Proof. repeat split. Qed.

(** Unity checks of exactly 80 and exactly 100. *)
Example run_boundaries :
  let rows := [mkCase 0.8 500 "A"; mkCase 1 1000 "C"] in
  option_map (fun r => (chart_y r, chart_color r))
    (match result (plotly_and_data_view product_sheet (params_of rows false)) with
     | OK r => Some r
     | Raise _ => None
     end)
  = Some ([80; 100]%float, ["green"; "orange"]).
Proof. reflexivity. Qed.

(** A norm outside the option list stops the view before any request. *)
Example run_unknown_norm :
  plotly_and_data_view product_sheet (params_of [mkCase 0.3 1000 "D"; case_1] true)
  = ([], Raise NotImplementedError).
Proof. reflexivity. Qed.

(** The sheet fails on the third row: three requests, then the failure. *)
Example run_broken_sheet :
  plotly_and_data_view broken_sheet (params_of (sample_rows ++ [case_1]) true)
  = ([request_of case_1; request_of case_2; request_of case_3],
     Raise (SpreadsheetError "sheet unreachable")).
Proof. reflexivity. Qed.

(* ===================================================================== *)
(** ** Properties of the specification *)
(* ===================================================================== *)

Section Claims.

Variable sheet : Request -> string -> string + float.

(** C1.  For every case the status and the bar colour follow from the raw
    unity check, the very number put on the item and in the chart: above
    100 it is ERROR and red (tested first, so it wins over the next
    branch); above 80 and at most 100 it is WARNING and orange; at most 80
    it is SUCCESS and green.  Exactly 100 is WARNING, exactly 80 is
    SUCCESS.  The item and the graph carry the unrounded value; the option
    [number_of_decimals=0] only concerns its display. *)
Theorem status_from_raw_unity_check (params : Params) (i : nat) (c : Case)
    (uc : float) (color : string) (item : DataItem) :
  result (eval_case sheet params i c) = OK ((uc, color), item) ->
  item_value item = PyFloat uc /\
  ((100 <? uc)%float = true ->
     item_status item = Some ERROR /\ color = "red") /\
  ((80 <? uc)%float = true -> (uc <=? 100)%float = true ->
     item_status item = Some WARNING /\ color = "orange") /\
  ((uc <=? 80)%float = true ->
     item_status item = Some SUCCESS /\ color = "green") /\
  (uc = 100%float -> item_status item = Some WARNING /\ color = "orange") /\
  (uc = 80%float -> item_status item = Some SUCCESS /\ color = "green").
Proof.
  intros H. apply eval_case_ok in H as (max_mass & mass & _ & _ & _ & H).
  unfold case_output in H. injection H as Huc -> ->. cbn [item_value item_status].
  rewrite <- Huc.
  destruct (classify_cases uc) as (Herr & Hwarn & Hok).
  split; [reflexivity|]. cbn [case_item item_status]. clear Huc.
  split; [intros H; rewrite (Herr H); now split|].
  split; [intros H1 H2; rewrite (Hwarn H1 H2); now split|].
  split; [intros H; rewrite (Hok H); now split|].
  split; intros ->; split; reflexivity.
Qed.

(** C2.  Whatever the calculation method and the sheet, an empty array of
    cases ends the view with the user exception "Add at least 1 case.":
    the loop has collected nothing, no request went to the spreadsheet
    service, and no result object is returned.  The test sits after the
    loop, yet it only ever fires for the empty array, where the loop had no
    row to work on. *)
Theorem empty_cases_rejected (use_spreadsheet : bool) :
  let params := params_of [] use_spreadsheet in
  loop sheet params 1 (cases (calculate params)) [] [] = ret ([], []) /\
  plotly_and_data_view sheet params =
    ([], Raise (UserException "Add at least 1 case.")) /\
  (forall r, result (plotly_and_data_view sheet params) <> OK r) /\
  (forall rows msg,
     result (plotly_and_data_view sheet (params_of rows use_spreadsheet))
     = Raise (UserException msg) ->
     rows = []).
Proof.
  cbn zeta. split; [reflexivity|]. split; [reflexivity|]. split; [discriminate|].
  intros rows msg. rewrite result_view. cbn [params_of calculate cases].
  destruct (result (loop sheet (params_of rows use_spreadsheet) 1 rows [] []))
    as [[gd di]|e] eqn:Hloop.
  - destruct gd as [|g gd]; [|discriminate]. intros _.
    apply loop_ok in Hloop as (outs & [Hlen _] & Hgd & _).
    destruct outs; [|discriminate]. now destruct rows.
  - intros [= ->]. apply loop_raises in Hloop as (k & c & _ & He).
    apply eval_case_raises in He as [He | [He | [failure He]]]; discriminate.
Qed.

(** C3.  The maximum mass looked up for a norm is the constant of that
    norm: 500 for "A", 750 for "B", 1000 for "C". *)
Theorem max_mass_of_norms :
  max_mass_of "A" = ret 500%Z /\
  max_mass_of "B" = ret 750%Z /\
  max_mass_of "C" = ret 1000%Z /\
  forall n, valid_norm n ->
    exists m, max_mass_of n = ret m /\ In (n, m) [("A", 500%Z); ("B", 750%Z); ("C", 1000%Z)].
Proof.
  repeat split.
  intros n [-> | [-> | ->]]; eexists; (split; [reflexivity|]); cbn; auto.
Qed.

(** C4.  With the Python method (spreadsheet toggle off) the mass of a
    case is the binary64 product of its volume and density, for every
    volume and density and so for the non-negative ones: the step cannot
    raise, the whole view sends nothing to the service, and the item of the
    k-th case of a finished view shows exactly that product as its "Mass". *)
Theorem local_mass_is_product (rows : list Case) :
  (forall c, compute_mass sheet (params_of rows false) c
             = ([], OK (volume c * density c)%float)) /\
  requests (plotly_and_data_view sheet (params_of rows false)) = [] /\
  (forall r k c,
     result (plotly_and_data_view sheet (params_of rows false)) = OK r ->
     nth_error rows k = Some c ->
     exists item, nth_error (res_data r) k = Some item /\
                  shown "Mass" item = Some (PyFloat (volume c * density c)%float)).
Proof.
  split; [reflexivity|]. split; [rewrite requests_view; apply requests_loop_local|].
  intros r k c Hr Hk.
  destruct (view_ok_nth _ _ _ _ _ Hr Hk) as (uc & color & item & He & Hitem & _).
  exists item. split; [exact Hitem|].
  apply eval_case_ok in He as (max_mass & mass & _ & Hmass & _ & He).
  rewrite compute_mass_local in Hmass. injection Hmass as <-.
  unfold case_output in He. injection He as _ _ ->. reflexivity.
Qed.

(** C5.  The unity check of a case is mass / max_mass * 100, with the
    mass of the selected calculation method and the maximum mass of the
    case's norm.  For the case volume 0.3, density 1000, norm "A" and the
    Python method this gives mass 300, maximum mass 500, unity check 60.0,
    status SUCCESS and colour green. *)
Theorem unity_check_of_case :
  (forall params i c uc color item,
     result (eval_case sheet params i c) = OK ((uc, color), item) ->
     exists mass max_mass,
       result (compute_mass sheet params c) = OK mass /\
       result (max_mass_of (norm c)) = OK max_mass /\
       uc = (mass / float_of_int max_mass * 100)%float /\
       shown "Mass" item = Some (PyFloat mass) /\
       shown "Unity Check" item = Some (PyFloat uc) /\
       item_value item = PyFloat uc) /\
  max_mass_of (norm case_1) = ret 500%Z /\
  plotly_and_data_view sheet (params_of [case_1] false) =
    ([], OK (mkPlotlyAndDataResult
               (mkFigure [mkBarTrace "bar" ["Case 1"] [60%float] ["green"]]
                         "Unity Check [%]")
               [case_item 1 case_1 300 60 SUCCESS])).
Proof.
  split; [|split; reflexivity].
  intros params i c uc color item H.
  apply eval_case_ok in H as (max_mass & mass & Hmax & Hmass & _ & H).
  unfold case_output in H. injection H as Huc _ ->.
  exists mass, max_mass. now rewrite Huc.
Qed.

(** C6.  A view that returns has evaluated a non-empty array of N cases
    and returns exactly N items and N entries in each series of the chart;
    position k of each belongs to the k-th case: the item is named
    "Case k+1", repeats that case's volume, density and norm, and carries
    the unity check and colour found at position k of the chart. *)
Theorem results_follow_cases (params : Params) (r : PlotlyAndDataResult) :
  result (plotly_and_data_view sheet params) = OK r ->
  let rows := cases (calculate params) in
  let n := List.length rows in
  (0 < n)%nat /\
  List.length (res_data r) = n /\
  List.length (chart_x r) = n /\
  List.length (chart_y r) = n /\
  List.length (chart_color r) = n /\
  forall k c, nth_error rows k = Some c ->
    exists uc color item,
      result (eval_case sheet params (S k) c) = OK ((uc, color), item) /\
      nth_error (res_data r) k = Some item /\
      item_label item = ("Case " ++ str (S k))%string /\
      shown "Volume" item = Some (PyFloat (volume c)) /\
      shown "Density" item = Some (PyFloat (density c)) /\
      shown "Norm" item = Some (PyStr (norm c)) /\
      item_value item = PyFloat uc /\
      nth_error (chart_x r) k = Some ("Case " ++ str (S k))%string /\
      nth_error (chart_y r) k = Some uc /\
      nth_error (chart_color r) k = Some color.
Proof.
  intros Hr rows n.
  destruct (view_ok_length _ _ _ Hr) as (Hn & Hd & Hx & Hy & Hc).
  repeat (split; [assumption|]).
  intros k c Hk.
  destruct (view_ok_nth _ _ _ _ _ Hr Hk) as (uc & color & item & He & Hi & Hx' & Hy' & Hc').
  exists uc, color, item. repeat (split; [assumption|]).
  apply eval_case_ok in He as (max_mass & mass & _ & _ & _ & He).
  unfold case_output in He. injection He as Huc _ ->. rewrite <- Huc.
  repeat split; assumption.
Qed.

(** C7.  If the sheet answers every request for the mass of a volume v and
    a density d with the product v * d, the view returns with the
    spreadsheet method exactly what it returns with the Python method: the
    same items (mass, unity check, status) and the same chart, or the same
    exception. *)
Theorem delegated_product_sheet_matches_local (rows : list Case) :
  (forall v d, sheet [("volume", v); ("density", d)] "mass" = inr (v * d)%float) ->
  result (plotly_and_data_view sheet (params_of rows true)) =
  result (plotly_and_data_view sheet (params_of rows false)).
Proof.
  intros Hsheet. rewrite !result_view. cbn [params_of calculate cases].
  rewrite (loop_ext sheet (params_of rows true) (params_of rows false));
    [reflexivity|].
  intros i c _. rewrite !result_eval_case.
  rewrite result_compute_mass_delegated, compute_mass_local.
  unfold request_of. now rewrite Hsheet.
Qed.

(** C8.  With the spreadsheet method, if the request of any one case
    fails, the view returns no result at all.  Over cases with valid norms
    it ends at the first case whose request fails, with the failure just
    as the service gave it: the cases up to that one were sent to the
    service, the later ones are never evaluated. *)
Theorem delegated_failure_aborts (rows : list Case) :
  (exists c failure, In c rows /\ sheet (request_of c) "mass" = inl failure) ->
  (forall r, result (plotly_and_data_view sheet (params_of rows true)) <> OK r) /\
  ((forall c, In c rows -> valid_norm (norm c)) ->
   exists pre c post failure,
     rows = pre ++ c :: post /\
     sheet (request_of c) "mass" = inl failure /\
     plotly_and_data_view sheet (params_of rows true)
     = (map request_of (pre ++ [c]), Raise (SpreadsheetError failure))).
Proof.
  intros Hsome. split.
  - destruct Hsome as (c & failure & Hin & Hfail).
    intros r Hr. destruct (In_nth_error _ _ Hin) as [k Hk].
    destruct (view_ok_nth _ (params_of rows true) _ _ _ Hr Hk)
      as (uc & color & item & He & _).
    apply eval_case_ok in He as (max_mass & mass & _ & Hmass & _).
    rewrite result_compute_mass_delegated, Hfail in Hmass. discriminate.
  - intros Hvalid.
    destruct (first_failure sheet rows Hsome)
      as (pre & c & post & failure & Hrows & Hpre & Hfail).
    exists pre, c, post, failure. split; [exact Hrows|]. split; [exact Hfail|].
    unfold plotly_and_data_view. cbn [params_of calculate cases].
    assert (Hin : forall c', In c' (pre ++ c :: post) -> valid_norm (norm c'))
      by (intros c' H; apply Hvalid; now rewrite Hrows).
    rewrite Hrows at 2.
    rewrite (loop_first_failure sheet rows pre c post failure); try assumption.
    + reflexivity.
    + intros c' H. apply Hin, in_or_app. now left.
    + apply Hin, in_or_app. right. now left.
Qed.

(** C9.  The outcome for the case at position k depends on that case and
    on the calculation method alone: two finished views with the same
    method (and sheet) whose arrays hold the same case at position k return
    the same item and the same chart entry at position k, whatever the
    other cases are. *)
Theorem case_outcome_independent (use_spreadsheet : bool)
    (rows1 rows2 : list Case) (r1 r2 : PlotlyAndDataResult) (k : nat) (c : Case) :
  result (plotly_and_data_view sheet (params_of rows1 use_spreadsheet)) = OK r1 ->
  result (plotly_and_data_view sheet (params_of rows2 use_spreadsheet)) = OK r2 ->
  nth_error rows1 k = Some c ->
  nth_error rows2 k = Some c ->
  (exists item, nth_error (res_data r1) k = Some item) /\
  nth_error (res_data r1) k = nth_error (res_data r2) k /\
  nth_error (chart_x r1) k = nth_error (chart_x r2) k /\
  nth_error (chart_y r1) k = nth_error (chart_y r2) k /\
  nth_error (chart_color r1) k = nth_error (chart_color r2) k.
Proof.
  intros H1 H2 Hk1 Hk2.
  destruct (view_ok_nth _ (params_of rows1 use_spreadsheet) _ _ _ H1 Hk1)
    as (uc1 & color1 & item1 & He1 & Hi1 & Hx1 & Hy1 & Hc1).
  destruct (view_ok_nth _ (params_of rows2 use_spreadsheet) _ _ _ H2 Hk2)
    as (uc2 & color2 & item2 & He2 & Hi2 & Hx2 & Hy2 & Hc2).
  rewrite (eval_case_method sheet _ (params_of rows2 use_spreadsheet)) in He1
    by reflexivity.
  rewrite He1 in He2. injection He2 as <- <- <-.
  split; [now exists item1|].
  now rewrite Hi1, Hi2, Hx1, Hx2, Hy1, Hy2, Hc1, Hc2.
Qed.

(** C10.  Over cases whose norm is "A", "B" or "C" the lookup of the
    maximum mass succeeds with 500, 750 or 1000, a strictly positive
    divisor, so that the division goes through for every mass (0
    included); the view then never ends with NotImplementedError or
    ZeroDivisionError, and it returns a result whenever there is a case
    and every mass is obtained, as it always is with the Python method. *)
Theorem valid_norms_never_fail (params : Params) :
  let rows := cases (calculate params) in
  (forall c, In c rows -> valid_norm (norm c)) ->
  (forall c, In c rows ->
     exists max_mass,
       max_mass_of (norm c) = ret max_mass /\
       (max_mass = 500 \/ max_mass = 750 \/ max_mass = 1000)%Z /\
       (0 < max_mass)%Z /\
       forall mass, py_truediv mass max_mass
                    = ret (mass / float_of_int max_mass)%float) /\
  result (plotly_and_data_view sheet params) <> Raise NotImplementedError /\
  result (plotly_and_data_view sheet params) <> Raise ZeroDivisionError /\
  (rows <> [] ->
   (forall c, In c rows -> exists mass, result (compute_mass sheet params c) = OK mass) ->
   exists r, result (plotly_and_data_view sheet params) = OK r) /\
  (rows <> [] -> spreadsheet (calculate params) = false ->
   exists r, result (plotly_and_data_view sheet params) = OK r).
Proof.
  intros rows Hvalid.
  assert (Hview := result_view sheet params). fold rows in Hview.
  assert (Hrun : rows <> [] ->
            (forall c, In c rows ->
               exists mass, result (compute_mass sheet params c) = OK mass) ->
            exists r, result (plotly_and_data_view sheet params) = OK r).
  { intros Hne Hmass.
    destruct (loop_runs sheet params rows 1 [] []) as (gd & di & Hloop).
    - intros k c Hk. apply nth_error_In in Hk.
      destruct (eval_case_valid sheet params (1 + k) c (Hvalid c Hk)) as (m & _ & _ & ->).
      destruct (Hmass c Hk) as [mass ->]. eauto.
    - rewrite Hloop in Hview.
      destruct (loop_ok _ _ _ _ _ _ _ _ Hloop) as (outs & [Hlen _] & Hgd & _).
      destruct gd as [|g gd]; [|eauto].
      destruct outs; [|discriminate]. destruct rows; [contradiction|discriminate]. }
  split; [|split; [|split; [|split]]].
  - intros c Hin. destruct (max_mass_of_valid _ (Hvalid c Hin)) as (m & Hm & Hval).
    exists m. split; [exact Hm|]. split; [exact Hval|]. split; [lia|].
    intros mass. unfold py_truediv. destruct (Z.eqb_spec m 0); [lia|reflexivity].
  - rewrite Hview.
    destruct (loop_outcome sheet params rows Hvalid 1%nat [] [])
      as [(gd & di & ->) | (c & failure & _ & _ & _ & ->)]; [|discriminate].
    destruct gd; discriminate.
  - rewrite Hview.
    destruct (loop_outcome sheet params rows Hvalid 1%nat [] [])
      as [(gd & di & ->) | (c & failure & _ & _ & _ & ->)]; [|discriminate].
    destruct gd; discriminate.
  - exact Hrun.
  - intros Hne Hlocal. apply Hrun; [exact Hne|].
    intros c _. unfold compute_mass. rewrite Hlocal. eexists; reflexivity.
Qed.

End Claims.

(* ===================================================================== *)
(** ** The properties at concrete inputs *)
(* ===================================================================== *)

Lemma status_from_raw_unity_check_witness :
  result (eval_case product_sheet (params_of [case_2] false) 1 case_2)
  = OK ((160%float, "red"), case_item 1 case_2 800 160 ERROR) /\
  (100 <? 160)%float = true /\
  item_status (case_item 1 case_2 800 160 ERROR) = Some ERROR /\ "red" = "red".
Proof.
  split; [reflexivity|]. split; [reflexivity|].
  destruct (status_from_raw_unity_check product_sheet (params_of [case_2] false)
              1 case_2 160 "red" (case_item 1 case_2 800 160 ERROR))
    as (_ & Herr & _); [reflexivity|].
  apply Herr. reflexivity.
Defined.

Lemma empty_cases_rejected_witness :
  result (plotly_and_data_view product_sheet (params_of [] true))
  = Raise (UserException "Add at least 1 case.") /\
  @nil Case = [].
Proof.
  split; [reflexivity|].
  destruct (empty_cases_rejected product_sheet true) as (_ & _ & _ & H).
  apply (H [] "Add at least 1 case."). reflexivity.
Defined.

Lemma max_mass_of_norms_witness :
  valid_norm "B" /\
  exists m, max_mass_of "B" = ret m /\
            In ("B", m) [("A", 500%Z); ("B", 750%Z); ("C", 1000%Z)].
Proof.
  assert (Hb : valid_norm "B") by (right; left; reflexivity).
  split; [exact Hb|].
  destruct max_mass_of_norms as (_ & _ & _ & H). apply H. exact Hb.
Defined.

Lemma local_mass_is_product_witness :
  result (plotly_and_data_view product_sheet (params_of sample_rows false))
  = OK sample_result /\
  nth_error sample_rows 2 = Some case_3 /\
  exists item, nth_error (res_data sample_result) 2 = Some item /\
               shown "Mass" item = Some (PyFloat (volume case_3 * density case_3)%float).
Proof.
  split; [reflexivity|]. split; [reflexivity|].
  destruct (local_mass_is_product product_sheet sample_rows) as (_ & _ & H).
  apply H; reflexivity.
Defined.

Lemma unity_check_of_case_witness :
  result (eval_case product_sheet (params_of [case_3] true) 1 case_3)
  = OK ((60%float, "green"), case_item 1 case_3 450 60 SUCCESS) /\
  exists mass max_mass,
    result (compute_mass product_sheet (params_of [case_3] true) case_3) = OK mass /\
    result (max_mass_of (norm case_3)) = OK max_mass /\
    60%float = (mass / float_of_int max_mass * 100)%float /\
    shown "Mass" (case_item 1 case_3 450 60 SUCCESS) = Some (PyFloat mass) /\
    shown "Unity Check" (case_item 1 case_3 450 60 SUCCESS) = Some (PyFloat 60) /\
    item_value (case_item 1 case_3 450 60 SUCCESS) = PyFloat 60.
Proof.
  split; [reflexivity|].
  destruct (unity_check_of_case product_sheet) as [H _].
  apply (H (params_of [case_3] true) 1%nat case_3 60%float "green"). reflexivity.
Defined.

Lemma results_follow_cases_witness :
  result (plotly_and_data_view product_sheet (params_of sample_rows false))
  = OK sample_result /\
  List.length (res_data sample_result) = 3%nat /\
  List.length (chart_y sample_result) = 3%nat.
Proof.
  split; [reflexivity|].
  destruct (results_follow_cases product_sheet (params_of sample_rows false)
              sample_result) as (_ & Hd & _ & Hy & _); [reflexivity|].
  split; [exact Hd | exact Hy].
Defined.

Lemma delegated_product_sheet_matches_local_witness :
  (forall v d, product_sheet [("volume", v); ("density", d)] "mass" = inr (v * d)%float) /\
  result (plotly_and_data_view product_sheet (params_of sample_rows true)) =
  result (plotly_and_data_view product_sheet (params_of sample_rows false)).
Proof.
  assert (H : forall v d,
             product_sheet [("volume", v); ("density", d)] "mass" = inr (v * d)%float)
    by (intros v d; reflexivity).
  split; [exact H|].
  apply (delegated_product_sheet_matches_local product_sheet sample_rows). exact H.
Defined.

Lemma delegated_failure_aborts_witness :
  (In case_3 sample_rows /\
   broken_sheet (request_of case_3) "mass" = inl "sheet unreachable") /\
  (forall c, In c sample_rows -> valid_norm (norm c)) /\
  (forall r, result (plotly_and_data_view broken_sheet (params_of sample_rows true))
             <> OK r) /\
  exists pre c post failure,
    sample_rows = pre ++ c :: post /\
    broken_sheet (request_of c) "mass" = inl failure /\
    plotly_and_data_view broken_sheet (params_of sample_rows true)
    = (map request_of (pre ++ [c]), Raise (SpreadsheetError failure)).
Proof.
  assert (Hfail : In case_3 sample_rows /\
                  broken_sheet (request_of case_3) "mass" = inl "sheet unreachable")
    by (split; [simpl; auto | reflexivity]).
  assert (Hvalid : forall c, In c sample_rows -> valid_norm (norm c)).
  { intros c [<- | [<- | [<- | []]]].
    - left; reflexivity.
    - left; reflexivity.
    - right; left; reflexivity. }
  split; [exact Hfail|]. split; [exact Hvalid|].
  destruct (delegated_failure_aborts broken_sheet sample_rows) as [Hno Hexn].
  - exists case_3, "sheet unreachable". exact Hfail.
  - split; [exact Hno | exact (Hexn Hvalid)].
Defined.

Lemma case_outcome_independent_witness :
  result (plotly_and_data_view product_sheet (params_of sample_rows false))
  = OK sample_result /\
  result (plotly_and_data_view product_sheet
            (params_of [case_2; case_1; case_3] false))
  = OK swapped_result /\
  nth_error (res_data sample_result) 2 = nth_error (res_data swapped_result) 2 /\
  nth_error (chart_y sample_result) 2 = nth_error (chart_y swapped_result) 2.
Proof.
  split; [reflexivity|]. split; [reflexivity|].
  destruct (case_outcome_independent product_sheet false sample_rows
              [case_2; case_1; case_3] sample_result swapped_result 2 case_3)
    as (_ & Hd & _ & Hy & _); try reflexivity.
  split; [exact Hd | exact Hy].
Defined.

Lemma valid_norms_never_fail_witness :
  (forall c, In c sample_rows -> valid_norm (norm c)) /\
  result (plotly_and_data_view product_sheet (params_of sample_rows false))
  <> Raise NotImplementedError /\
  exists r, result (plotly_and_data_view product_sheet (params_of sample_rows false))
            = OK r.
Proof.
  assert (Hvalid : forall c, In c sample_rows -> valid_norm (norm c)).
  { intros c [<- | [<- | [<- | []]]].
    - left; reflexivity.
    - left; reflexivity.
    - right; left; reflexivity. }
  split; [exact Hvalid|].
  destruct (valid_norms_never_fail product_sheet (params_of sample_rows false) Hvalid)
    as (_ & Hni & _ & _ & Hlocal).
  split; [exact Hni|]. apply Hlocal; [discriminate | reflexivity].
Defined.

(* ===================================================================== *)
(** ** Further properties of the "Results" view *)
(* ===================================================================== *)







(** A view over rows with valid norms whose masses are all obtained
    returns as soon as there is a row. *)
Lemma view_runs (sheet : Request -> string -> string + float) (params : Params) :
  cases (calculate params) <> [] ->
  (forall c, In c (cases (calculate params)) -> valid_norm (norm c)) ->
  (forall c, In c (cases (calculate params)) ->
     exists mass, result (compute_mass sheet params c) = OK mass) ->
  exists r, result (plotly_and_data_view sheet params) = OK r.
Proof.
  intros Hne Hvalid Hmass. rewrite result_view.
  destruct (loop_runs sheet params (cases (calculate params)) 1 [] [])
    as (gd & di & Hloop).
  - intros k c Hk. apply nth_error_In in Hk.
    destruct (eval_case_valid sheet params (1 + k) c (Hvalid c Hk)) as (m & _ & _ & ->).
    destruct (Hmass c Hk) as [mass ->]. eauto.
  - rewrite Hloop.
    destruct (loop_ok _ _ _ _ _ _ _ _ Hloop) as (outs & [Hlen _] & Hgd & _).
    destruct gd as [|g gd]; [|eauto].
    destruct outs; [|discriminate].
    destruct (cases (calculate params)); [contradiction|discriminate].
Qed.

Section MoreOnResults.

Variable sheet : Request -> string -> string + float.



Lemma loop_delegated_all (R rows : list Case) :
  (forall c, In c rows -> valid_norm (norm c)) ->
  (forall c, In c rows -> exists mass, sheet (request_of c) "mass" = inr mass) ->
  forall i gd di,
    requests (loop sheet (params_of R true) i rows gd di) = map request_of rows.
Proof.
  induction rows as [|c rows IH]; intros Hvalid Hmass i gd di; [reflexivity|].
  cbn [loop map].
  destruct (eval_case_delegated sheet R i c (Hvalid c (or_introl eq_refl))) as (m & ->).
  destruct (Hmass c (or_introl eq_refl)) as [mass ->].
  unfold case_output. cbn [bind].
  rewrite (M_eta (loop _ _ _ _ _ _)), IH; [reflexivity | |].
  - intros c' H. apply Hvalid. now right.
  - intros c' H. apply Hmass. now right.
Qed.

(** X3.  With the spreadsheet method, cases with valid norms and a sheet
    that answers every one of them: the view returns a result after
    exactly one request per case, sent in the order of the cases. *)
Theorem delegated_requests_in_order (rows : list Case) :
  rows <> [] ->
  (forall c, In c rows -> valid_norm (norm c)) ->
  (forall c, In c rows -> exists mass, sheet (request_of c) "mass" = inr mass) ->
  exists r, plotly_and_data_view sheet (params_of rows true)
            = (map request_of rows, OK r).
Proof.
  intros Hne Hvalid Hmass.
  destruct (view_runs sheet (params_of rows true)) as [r Hr]; auto.
  - intros c Hin. rewrite result_compute_mass_delegated.
    destruct (Hmass c Hin) as [mass ->]. now exists mass.
  - exists r. rewrite (M_eta (plotly_and_data_view _ _)), Hr, requests_view.
    cbn [params_of calculate cases]. now rewrite loop_delegated_all.
Qed.



Lemma requests_loop_prefix (R rows : list Case) :
  forall i gd di,
    exists n, requests (loop sheet (params_of R true) i rows gd di)
              = map request_of (firstn n rows).
Proof.
  induction rows as [|c rows IH]; intros i gd di; [now exists 0%nat|].
  rewrite requests_loop_cons, requests_eval_case, result_eval_case.
  destruct (result (max_mass_of (norm c))) as [m|e]; [|now exists 0%nat].
  assert (Hreq : requests (compute_mass sheet (params_of R true) c) = [request_of c]).
  { cbn. unfold calculate_mass_from_spreadsheet, request_of. cbv zeta.
    destruct (sheet _ _); reflexivity. }
  rewrite Hreq.
  destruct (result (compute_mass sheet (params_of R true) c)) as [mass|e];
    [|now exists 1%nat].
  destruct (m =? 0)%Z; [now exists 1%nat|].
  destruct (IH (S i) (gd ++ [fst (case_output i c mass m)])
               (di ++ [snd (case_output i c mass m)])) as [n Hn].
  exists (S n). now rewrite Hn.
Qed.

(** X5.  With the spreadsheet method the requests the view has sent are,
    whatever happens, those of an initial stretch of the cases, one each
    and in order: no case is asked for twice, none is skipped, none is
    asked for after the view has stopped. *)
Theorem delegated_requests_prefix (rows : list Case) :
  exists n, (n <= List.length rows)%nat /\
            requests (plotly_and_data_view sheet (params_of rows true))
            = map request_of (firstn n rows).
Proof.
  rewrite requests_view. cbn [params_of calculate cases].
  destruct (requests_loop_prefix rows rows 1 [] []) as [n Hn].
  exists (Nat.min n (List.length rows)). split; [lia|].
  rewrite Hn. f_equal.
  destruct (Nat.le_ge_cases n (List.length rows)) as [H|H].
  - now rewrite Nat.min_l.
  - rewrite Nat.min_r by exact H. now rewrite !firstn_all2.
Qed.


Lemma ltb_nan (x y : float) :
  PrimFloat.is_nan y = true -> (x <? y)%float = false.
Proof.
  unfold PrimFloat.is_nan. rewrite FloatAxioms.eqb_spec, FloatAxioms.ltb_spec.
  unfold SFeqb, SFltb.
  destruct (Prim2SF y) as [s|s| |s m e]; cbn [SFcompare].
  - discriminate.
  - destruct s; discriminate.
  - intros _. now destruct (Prim2SF x).
  - rewrite Z.compare_refl, Pos.compare_cont_refl. destruct s; discriminate.
Qed.

(** X7.  A unity check that is not a number, as results from a sheet
    that answers NaN for the mass, fails both comparisons and is reported
    as SUCCESS in green. *)
Theorem nan_unity_check_is_success (params : Params) (i : nat) (c : Case)
    (uc : float) (color : string) (item : DataItem) :
  result (eval_case sheet params i c) = OK ((uc, color), item) ->
  PrimFloat.is_nan uc = true ->
  item_status item = Some SUCCESS /\ color = "green".
Proof.
  intros H Hnan. apply eval_case_ok in H as (max_mass & mass & _ & _ & _ & H).
  unfold case_output in H. injection H as Huc -> ->. rewrite <- Huc.
  cbn [case_item item_status]. unfold classify.
  now rewrite !(ltb_nan _ uc Hnan).
Qed.

Lemma DataStatus_eqb_eq (a b : DataStatus) : DataStatus_eqb a b = true -> a = b.
Proof. destruct a, b; (reflexivity || discriminate). Qed.

Lemma grid_agrees_sound (densities max_masses : list Z) :
  grid_agrees densities max_masses = true ->
  forall v q d m,
    In (v, q) volume_grid -> In d densities -> In m max_masses ->
    classify (v * float_of_int d / float_of_int m * 100)
    = exact_status (exact_unity_check q d m).
Proof.
  unfold grid_agrees. intros H v q d m Hv Hd Hm.
  rewrite forallb_forall in H. specialize (H (v, q) Hv).
  rewrite forallb_forall in H. specialize (H d Hd).
  rewrite forallb_forall in H. specialize (H m Hm). cbn [fst snd] in H.
  destruct (classify _) as [s c], (exact_status _) as [s' c'].
  apply andb_prop in H as [Hs Hc].
  apply DataStatus_eqb_eq in Hs. apply String.eqb_eq in Hc. now subst.
Qed.

Lemma grid_agrees_field_ranges :
  grid_agrees (map Z.of_nat (seq 0 3001)) [500; 750; 1000]%Z = true.
Proof. vm_compute. reflexivity. Qed.

(** X8.  On the inputs the form offers (a volume of 0.1, 0.2, ..., 1.0, an
    integer density from 0 to 3000 and a norm "A", "B" or "C") the status
    and colour computed in binary64 with the Python method are those of
    the exact rational unity check: rounding never moves a case across
    the 80 or the 100 mark. *)
Theorem grid_status_exact (rows : list Case) (i : nat) (v : float)
    (q : QArith_base.Q) (d : Z) (n : string) :
  In (v, q) volume_grid ->
  (0 <= d <= 3000)%Z ->
  valid_norm n ->
  exists max_mass uc item,
    max_mass_of n = ret max_mass /\
    result (eval_case sheet (params_of rows false) i (mkCase v (float_of_int d) n))
    = OK ((uc, snd (exact_status (exact_unity_check q d max_mass))), item) /\
    item_status item = Some (fst (exact_status (exact_unity_check q d max_mass))).
Proof.
  intros Hv Hd Hn.
  destruct (max_mass_of_valid n Hn) as (m & Hm & Hval).
  assert (Hin : In m [500; 750; 1000]%Z) by (cbn [In]; lia).
  assert (Hdin : In d (map Z.of_nat (seq 0 3001))).
  { rewrite <- (Z2Nat.id d) by lia. apply in_map, in_seq. lia. }
  pose proof (grid_agrees_sound _ _ grid_agrees_field_ranges v q d m Hv Hdin Hin)
    as Hexact.
  exists m. rewrite result_eval_case. cbn [norm]. rewrite Hm, result_ret.
  rewrite compute_mass_local, result_ret. cbn [volume density].
  destruct (Z.eqb_spec m 0); [lia|]. unfold case_output. rewrite Hexact.
  eexists _, _. split; [reflexivity|]. split; reflexivity.
Qed.

Lemma to_uint_nonnil (n : nat) : Nat.to_uint n <> Decimal.Nil.
Proof.
  rewrite <- (DecimalNat.Unsigned.of_to n) at 1.
  rewrite DecimalNat.Unsigned.to_of. apply DecimalFacts.unorm_nonnil.
Qed.

Lemma str_inj (i j : nat) : str i = str j -> i = j.
Proof.
  unfold str. intros H. apply (f_equal NilZero.uint_of_string) in H.
  rewrite !NilZero.usu in H by apply to_uint_nonnil. injection H as H.
  now apply DecimalNat.Unsigned.to_uint_inj.
Qed.

Lemma case_name_inj : Finite.Injective (fun i => ("Case " ++ str i)%string).
Proof.
  intros i j H. cbn in H. injection H as H. now apply str_inj.
Qed.

Lemma rows_evaluated_names (params : Params)
    (outs : list ((float * string) * DataItem)) :
  forall rows i,
    rows_evaluated sheet params i rows outs ->
    map (fun o => item_label (snd o)) outs
    = map (fun i => ("Case " ++ str i)%string) (seq i (List.length outs)).
Proof.
  induction outs as [|o outs IH]; intros rows i [Hlen Hnth]; [reflexivity|].
  destruct rows as [|c rows]; [discriminate|].
  cbn [map List.length seq]. f_equal.
  - destruct (Hnth 0%nat c eq_refl) as (o' & [= <-] & He).
    apply eval_case_ok in He as (m & mass & _ & _ & _ & ->).
    now rewrite Nat.add_0_r.
  - apply (IH rows (S i)). split; [cbn in Hlen; lia|].
    intros k c' Hk. destruct (Hnth (S k) c' Hk) as (o' & Ho' & He).
    exists o'. split; [exact Ho'|]. now replace (S i + k)%nat with (i + S k)%nat by lia.
Qed.

(** X15.  In a returned result the items carry, in order, the names of
    the bars of the chart, "Case 1", "Case 2", ...; these names are
    pairwise distinct, so no two cases fall on the same bar. *)
Theorem case_names_distinct (params : Params) (r : PlotlyAndDataResult) :
  result (plotly_and_data_view sheet params) = OK r ->
  map item_label (res_data r) = chart_x r /\
  chart_x r = map (fun i => ("Case " ++ str i)%string)
                  (seq 1 (List.length (cases (calculate params)))) /\
  NoDup (chart_x r).
Proof.
  intros Hr. apply view_ok in Hr as (outs & Hrows & _ & ->).
  pose proof (rows_evaluated_names params outs _ _ Hrows) as Hnames.
  destruct Hrows as [Hlen _].
  unfold chart_x, view_result. cbn. rewrite app_nil_r, map_map, Hnames, <- Hlen.
  repeat split.
  apply Finite.Injective_map_NoDup; [exact case_name_inj | apply seq_NoDup].
Qed.

End MoreOnResults.

(* ===================================================================== *)
(** ** Properties of the colour scale, the map and the geometry view *)
(* ===================================================================== *)

Lemma get_color_exact_sound (v : Z) :
  get_color_exact v = true -> get_color v = Returns (scale_color v).
Proof.
  unfold get_color_exact, scale_color.
  destruct (get_color v) as [[[r|x] [g|x'] [b|x'']|]|e]; try discriminate.
  intros H. apply andb_prop in H as [H Hb]. apply andb_prop in H as [Hr Hg].
  apply Z.eqb_eq in Hr, Hg, Hb. now subst.
Qed.

Lemma get_color_exact_range :
  forallb get_color_exact (map Z.of_nat (seq 0 101)) = true.
Proof. vm_compute. reflexivity. Qed.

Lemma get_color_in_range (v : Z) :
  (0 <= v <= 100)%Z -> get_color v = Returns (scale_color v).
Proof.
  intros Hv. apply get_color_exact_sound.
  pose proof get_color_exact_range as H. rewrite forallb_forall in H. apply H.
  rewrite <- (Z2Nat.id v) by lia. apply in_map, in_seq. lia.
Qed.

Lemma get_color_out_of_range (v : Z) :
  (v < 0 \/ 100 < v)%Z ->
  get_color v
  = Raises (ValueError ("value (" ++ str_int v ++ ") must be between 0 - 100")).
Proof.
  intros Hv. unfold get_color.
  destruct (Z.leb_spec 0 v), (Z.leb_spec v 100); cbn [andb negb];
    try reflexivity; lia.
Qed.

(** X9.  [get_color] accepts exactly the values from 0 to 100.  For these
    it returns the colour with green 255, blue 0 and a red channel of
    255 * value / 100 rounded down: the detour through binary64 and
    [int()] loses nothing.  Any other value raises the ValueError that
    names it. *)
Theorem get_color_spec (v : Z) :
  ((0 <= v <= 100)%Z ->
   get_color v = Returns (Color_rgb (NumInt (255 * v / 100)) (NumInt 255) (NumInt 0))) /\
  ((v < 0 \/ 100 < v)%Z ->
   get_color v
   = Raises (ValueError ("value (" ++ str_int v ++ ") must be between 0 - 100"))).
Proof.
  split; [apply get_color_in_range | apply get_color_out_of_range].
Qed.

(** X10.  Over the accepted values the red channel stays within 0..255
    and grows strictly with the value: different measurements never share
    a colour. *)
Theorem get_color_strictly_monotone (v w : Z) :
  (0 <= v)%Z -> (v < w)%Z -> (w <= 100)%Z ->
  exists r1 r2,
    get_color v = Returns (Color_rgb (NumInt r1) (NumInt 255) (NumInt 0)) /\
    get_color w = Returns (Color_rgb (NumInt r2) (NumInt 255) (NumInt 0)) /\
    (0 <= r1 < r2)%Z /\ (r2 <= 255)%Z.
Proof.
  intros H0 Hvw H100.
  exists (255 * v / 100)%Z, (255 * w / 100)%Z.
  split; [apply get_color_in_range; lia|].
  split; [apply get_color_in_range; lia|].
  pose proof (Z.div_mod (255 * v) 100 ltac:(lia)) as Hv.
  pose proof (Z.mod_pos_bound (255 * v) 100 ltac:(lia)) as Hv'.
  pose proof (Z.div_mod (255 * w) 100 ltac:(lia)) as Hw.
  pose proof (Z.mod_pos_bound (255 * w) 100 ltac:(lia)) as Hw'.
  lia.
Qed.

Lemma legend_entries_of_scale :
  legend_entries_of [0; 10; 20; 30; 40; 50; 60; 70; 80; 90; 100]%Z
  = Returns scale_legend.
Proof. vm_compute. reflexivity. Qed.

(** X11.  The map view fails in one situation only: a location is set
    and the measurement lies outside 0..100; it then raises the ValueError
    of [get_color].  Without a location such a measurement goes unnoticed
    and the view returns. *)
Theorem map_view_raises_iff (data : ResearchData) (e : color_exn) :
  map_view data = Raises e <->
  exists loc m,
    location data = Some loc /\ measurement data = Some m /\
    (m < 0 \/ 100 < m)%Z /\
    e = ValueError ("value (" ++ str_int m ++ ") must be between 0 - 100").
Proof.
  unfold map_view. rewrite legend_entries_of_scale.
  destruct data as [[m|] [loc|]]; cbn [location measurement and_then].
  - destruct (Z_le_dec 0 m) as [H0|H0]; [destruct (Z_le_dec m 100) as [H1|H1]|].
    + rewrite get_color_in_range by lia. cbn. split; [discriminate|].
      intros (loc' & m' & _ & [= <-] & Hm & _). lia.
    + rewrite get_color_out_of_range by lia. cbn. split.
      * intros [= <-]. exists loc, m. repeat split; auto. lia.
      * now intros (loc' & m' & _ & [= <-] & _ & ->).
    + rewrite get_color_out_of_range by lia. cbn. split.
      * intros [= <-]. exists loc, m. repeat split; auto. lia.
      * now intros (loc' & m' & _ & [= <-] & _ & ->).
  - split; [discriminate|]. now intros (loc' & m' & [=] & _).
  - split; [discriminate|]. now intros (loc' & m' & _ & [=] & _).
  - split; [discriminate|]. now intros (loc' & m' & [=] & _).
Qed.

(** X12.  What the map view returns: always the same legend of eleven
    entries; no marker and no label without a location; a black cross
    described "Measurement: None" and no label for a location without
    measurement; and for a measurement m a "pin-add" marker in the colour
    of the scale at m, with one label showing m at the same place. *)
Theorem map_view_result (data : ResearchData) (r : MapResult) :
  map_view data = Returns r ->
  map_legend r = scale_legend /\
  (location data = None -> map_features r = [] /\ map_labels r = []) /\
  (forall loc, location data = Some loc -> measurement data = None ->
     map_features r = [mkMapPoint loc "Measurement: None" Color_black "cross"] /\
     map_labels r = []) /\
  (forall loc m, location data = Some loc -> measurement data = Some m ->
     (0 <= m <= 100)%Z /\
     map_features r = [mkMapPoint loc ("Measurement: " ++ str_int m)
                                  (scale_color m) "pin-add"] /\
     map_labels r = [mkMapLabel (lat loc) (lon loc) (str_int m) 17]).
Proof.
  unfold map_view. rewrite legend_entries_of_scale.
  destruct data as [[m|] [loc|]]; cbn [location measurement and_then].
  - destruct (Z_le_dec 0 m) as [H0|H0]; [destruct (Z_le_dec m 100) as [H1|H1]|];
      try (rewrite get_color_out_of_range by lia; discriminate).
    rewrite get_color_in_range by lia. cbn [and_then]. intros [= <-].
    cbn [map_legend map_features map_labels].
    split; [reflexivity|]. split; [discriminate|]. split; [intros loc' _ [=]|].
    intros loc' m' [= <-] [= <-]. split; [lia|]. split; reflexivity.
  - intros [= <-]. cbn [map_legend map_features map_labels].
    split; [reflexivity|]. split; [intros _; split; reflexivity|].
    split; [intros loc' [=]|]. intros loc' m' [=].
  - intros [= <-]. cbn [map_legend map_features map_labels].
    split; [reflexivity|]. split; [discriminate|].
    split; [intros loc' [= <-] _; split; reflexivity|]. intros loc' m' _ [=].
  - intros [= <-]. cbn [map_legend map_features map_labels].
    split; [reflexivity|]. split; [intros _; split; reflexivity|].
    split; [intros loc' [=]|]. intros loc' m' [=].
Qed.

Lemma valid_shape_dec (s : string) : {valid_shape s} + {~ valid_shape s}.
Proof.
  unfold valid_shape.
  destruct (string_dec s "Circle"); [left; auto|].
  destruct (string_dec s "Rectangle"); [left; auto|].
  destruct (string_dec s "Triangle"); [left; auto|].
  right. intros [H | [H | H]]; contradiction.
Qed.

Lemma geometry_view_cases (d : Design) :
  match height d with
  | None => geometry_view d = Raise (UserException "Please fill in a value for 'height'")
  | Some h =>
      (valid_shape (shape d) /\ exists r, geometry_view d = OK r) \/
      (~ valid_shape (shape d) /\ geometry_view d = Raise NotImplementedError)
  end.
Proof.
  unfold geometry_view, valid_shape. destruct (height d) as [h|]; [|reflexivity].
  destruct (String.eqb_spec (shape d) "Circle") as [H|H1]; [left; eauto|].
  destruct (String.eqb_spec (shape d) "Rectangle") as [H|H2]; [left; eauto|].
  destruct (String.eqb_spec (shape d) "Triangle") as [H|H3]; [left; eauto 6|].
  right. split; [|reflexivity]. intros [H | [H | H]]; contradiction.
Qed.

(** X13.  The geometry view ends with the user exception "Please fill in
    a value for 'height'" exactly when the height is empty, whatever the
    shape; with NotImplementedError exactly when a height is given and the
    shape is none of Circle, Rectangle, Triangle; and it returns a geometry
    exactly when a height is given and the shape is one of the three.
    Colours and label never make it fail. *)
Theorem geometry_view_outcome (d : Design) :
  (geometry_view d = Raise (UserException "Please fill in a value for 'height'")
   <-> height d = None) /\
  (geometry_view d = Raise NotImplementedError
   <-> height d <> None /\ ~ valid_shape (shape d)) /\
  ((exists r, geometry_view d = OK r)
   <-> height d <> None /\ valid_shape (shape d)).
Proof.
  pose proof (geometry_view_cases d) as H.
  destruct (height d) as [h|].
  - destruct H as [[Hs [r Hr]] | [Hs Hr]]; rewrite Hr.
    + split; [split; discriminate|].
      split; [split; [discriminate | intros [_ Hn]; contradiction]|].
      split; [intros _; split; [discriminate | exact Hs] | intros _; now exists r].
    + split; [split; discriminate|].
      split; [split; [intros _; split; [discriminate | exact Hs] | reflexivity]|].
      split; [intros [r [=]] | intros [_ Hv]; contradiction].
  - rewrite H. split; [split; reflexivity|].
    split; [split; [discriminate | intros [Hh _]; now elim Hh]|].
    split; [intros [r [=]] | intros [Hh _]; now elim Hh].
Qed.

(** X14.  A returned geometry always carries the material "my_material"
    in the colour of the three sliders.  It has at most one label: the
    label text, placed at height -h below the origin with size factor 2,
    present exactly when "Show label" is on and the text is neither
    missing nor empty. *)
Theorem geometry_view_labels (d : Design) (r : GeometryResult) :
  geometry_view d = OK r ->
  geometry_material (geometry r)
  = mkMaterial "my_material"
      (Color_rgb (NumFloat (red d)) (NumFloat (green d)) (NumFloat (blue d))) /\
  (List.length (geometry_labels r) <= 1)%nat /\
  (forall l, In l (geometry_labels r) ->
     show_label d = true /\ label d = Some (label_content l) /\
     label_content l <> "" /\ label_size_factor l = 2%Z /\
     exists h, height d = Some h /\
               label_point l = mkPoint [NumInt 0; NumInt 0; NumFloat (- h)%float]) /\
  (show_label d = true ->
   forall text, label d = Some text -> text <> "" -> geometry_labels r <> []).
Proof.
  unfold geometry_view. destruct (height d) as [h|]; [|discriminate].
  set (labels := if show_label d && text_filled (label d) then _ else _).
  assert (Hlabels :
    (List.length labels <= 1)%nat /\
    (forall l, In l labels ->
       show_label d = true /\ label d = Some (label_content l) /\
       label_content l <> "" /\ label_size_factor l = 2%Z /\
       label_point l = mkPoint [NumInt 0; NumInt 0; NumFloat (- h)%float]) /\
    (show_label d = true ->
     forall text, label d = Some text -> text <> "" -> labels <> [])).
  { subst labels. unfold text_filled.
    destruct (show_label d); cbn [andb];
      [|split; [cbn; lia | split; [intros l [] | discriminate]]].
    destruct (label d) as [text|];
      [|split; [cbn; lia | split; [intros l [] | intros _ text' [=]]]].
    destruct (String.eqb_spec text "") as [->|Hne]; cbn [negb].
    - split; [cbn; lia|]. split; [intros l []|].
      intros _ text' [= <-] H. now elim H.
    - split; [cbn; lia|]. split; [|intros _ text' _ _; discriminate].
      intros l [<-|[]]. cbn. repeat split; auto. }
  destruct Hlabels as (Hlen & Hin & Hex).
  intros Hr.
  assert (Hgeo : geometry_labels r = labels /\
                 geometry_material (geometry r)
                 = mkMaterial "my_material"
                     (Color_rgb (NumFloat (red d)) (NumFloat (green d))
                                (NumFloat (blue d)))).
  { destruct (shape d =? "Circle"); [injection Hr as <-; now split|].
    destruct (shape d =? "Rectangle"); [injection Hr as <-; now split|].
    destruct (shape d =? "Triangle"); [injection Hr as <-; now split|discriminate]. }
  destruct Hgeo as [-> ->]. split; [reflexivity|]. split; [exact Hlen|].
  split; [|exact Hex].
  intros l Hl. destruct (Hin l Hl) as (H1 & H2 & H3 & H4 & H5).
  repeat split; auto. now exists h.
Qed.

(* ===================================================================== *)
(** ** The further properties at concrete inputs *)
(* ===================================================================== *)

Lemma sample_rows_valid : forall c, In c sample_rows -> valid_norm (norm c).
Proof.
  intros c [<- | [<- | [<- | []]]].
  - left; reflexivity.
  - left; reflexivity.
  - right; left; reflexivity.
Qed.

Lemma sample_rows_answered :
  forall c, In c sample_rows ->
    exists mass, product_sheet (request_of c) "mass" = inr mass.
Proof.
  intros c [<- | [<- | [<- | []]]]; eexists; reflexivity.
Qed.




Lemma delegated_requests_in_order_witness :
  sample_rows <> [] /\
  exists r, plotly_and_data_view product_sheet (params_of sample_rows true)
            = (map request_of sample_rows, OK r).
Proof.
  split; [discriminate|].
  apply (delegated_requests_in_order product_sheet sample_rows).
  - discriminate.
  - exact sample_rows_valid.
  - exact sample_rows_answered.
Defined.


Lemma nan_unity_check_is_success_witness :
  result (eval_case nan_sheet (params_of [case_1] true) 1 case_1)
  = OK ((PrimFloat.nan, "green"), case_item 1 case_1 PrimFloat.nan PrimFloat.nan SUCCESS) /\
  PrimFloat.is_nan PrimFloat.nan = true /\
  item_status (case_item 1 case_1 PrimFloat.nan PrimFloat.nan SUCCESS) = Some SUCCESS /\
  "green" = "green".
Proof.
  split; [reflexivity|]. split; [reflexivity|].
  apply (nan_unity_check_is_success nan_sheet (params_of [case_1] true) 1 case_1
           PrimFloat.nan "green"); reflexivity.
Defined.

Lemma grid_status_exact_witness :
  In (0.8%float, QArith_base.Qmake 8 10) volume_grid /\
  exact_status (exact_unity_check (QArith_base.Qmake 8 10) 500 500) = (SUCCESS, "green") /\
  exists max_mass uc item,
    max_mass_of "A" = ret max_mass /\
    result (eval_case product_sheet (params_of [] false) 1
              (mkCase 0.8 (float_of_int 500) "A"))
    = OK ((uc, snd (exact_status (exact_unity_check (QArith_base.Qmake 8 10) 500 max_mass))),
          item) /\
    item_status item
    = Some (fst (exact_status (exact_unity_check (QArith_base.Qmake 8 10) 500 max_mass))).
Proof.
  assert (Hin : In (0.8%float, QArith_base.Qmake 8 10) volume_grid)
    by (simpl; tauto).
  split; [exact Hin|]. split; [reflexivity|].
  apply (grid_status_exact product_sheet [] 1 0.8%float (QArith_base.Qmake 8 10) 500 "A").
  - exact Hin.
  - lia.
  - left; reflexivity.
Defined.

Lemma get_color_spec_witness :
  (0 <= 60 <= 100)%Z /\
  get_color 60 = Returns (Color_rgb (NumInt 153) (NumInt 255) (NumInt 0)) /\
  (100 < 101)%Z /\
  get_color 101 = Raises (ValueError "value (101) must be between 0 - 100").
Proof.
  split; [lia|]. split; [apply (get_color_spec 60); lia|].
  split; [lia|]. apply (get_color_spec 101). right. lia.
Defined.

Lemma get_color_strictly_monotone_witness :
  exists r1 r2,
    get_color 20 = Returns (Color_rgb (NumInt r1) (NumInt 255) (NumInt 0)) /\
    get_color 60 = Returns (Color_rgb (NumInt r2) (NumInt 255) (NumInt 0)) /\
    (0 <= r1 < r2)%Z /\ (r2 <= 255)%Z.
Proof.
  apply (get_color_strictly_monotone 20 60); lia.
Defined.

Lemma map_view_raises_iff_witness :
  map_view (mkResearchData (Some 150%Z) (Some sample_location))
  = Raises (ValueError "value (150) must be between 0 - 100") /\
  map_view (mkResearchData (Some 150%Z) None) = Returns (mkMapResult [] [] scale_legend).
Proof.
  split; [|reflexivity].
  apply (map_view_raises_iff (mkResearchData (Some 150%Z) (Some sample_location))).
  exists sample_location, 150%Z. repeat split. right. lia.
Defined.

Lemma map_view_result_witness :
  let r := mkMapResult
             [mkMapPoint sample_location "Measurement: 40" (scale_color 40) "pin-add"]
             [mkMapLabel 52 4.5 "40" 17] scale_legend in
  map_view (mkResearchData (Some 40%Z) (Some sample_location)) = Returns r /\
  map_legend r = scale_legend /\ List.length (map_legend r) = 11%nat.
Proof.
  intros r. split; [reflexivity|].
  destruct (map_view_result (mkResearchData (Some 40%Z) (Some sample_location)) r)
    as (Hlegend & _); [reflexivity|].
  split; [exact Hlegend | reflexivity].
Defined.

Lemma geometry_view_outcome_witness :
  height (mkDesign "Hexagon" None 0 0 0 false None) = None /\
  geometry_view (mkDesign "Hexagon" None 0 0 0 false None)
  = Raise (UserException "Please fill in a value for 'height'").
Proof.
  split; [reflexivity|].
  apply (geometry_view_outcome (mkDesign "Hexagon" None 0 0 0 false None)).
  reflexivity.
Defined.

Lemma geometry_view_labels_witness :
  let material := mkMaterial "my_material"
                    (Color_rgb (NumFloat 100) (NumFloat 100) (NumFloat 100)) in
  let r := mkGeometryResult
             (SquareBeam (NumInt 1) (NumInt 1) (NumFloat 4) material)
             [mkLabel (mkPoint [NumInt 0; NumInt 0; NumFloat (-4)]) "beam" 2] in
  geometry_view sample_design = OK r /\
  geometry_material (geometry r) = material /\
  (List.length (geometry_labels r) <= 1)%nat.
Proof.
  intros material r. split; [reflexivity|].
  destruct (geometry_view_labels sample_design r) as (Hm & Hlen & _); [reflexivity|].
  split; [exact Hm | exact Hlen].
Defined.

Lemma case_names_distinct_witness :
  result (plotly_and_data_view product_sheet (params_of sample_rows false))
  = OK sample_result /\
  chart_x sample_result = ["Case 1"; "Case 2"; "Case 3"] /\
  NoDup (chart_x sample_result).
Proof.
  split; [reflexivity|]. split; [reflexivity|].
  apply (case_names_distinct product_sheet (params_of sample_rows false) sample_result).
  reflexivity.
Defined.
